(** * Furigana removal and image rebuild: a shallow embedding

    The development follows [remove_furigana.py] and
    [remove_ocr_textlayer.py].  The OCR result is the value that
    [json.load] returns, so the functions below work on an untyped JSON
    value and every Python operation that can raise is a function into
    [res].

    Numbers.  A JSON number is an exact rational [Q]: the arithmetic of the
    scripts (a difference, a comparison, a product with a constant) is
    modelled without the rounding of binary64 floats, and Python's [int]
    and [float] are not told apart.

    Operators.  The model adds, multiplies and orders numbers only (a
    [bool] counts as 0 or 1, as in Python).  Python also concatenates and
    orders strings and lists; coordinates and offsets of an OCR result are
    never such values, and the model raises [TypeError] there.

    Strings are sequences of characters ([string]); [len] and iteration of
    a string count its characters.

    Output.  What the scripts print is a list of messages; what they write
    is the value the functions return.  Stage 1 of [process_full_workflow]
    (the copy of the images) and the font belong to the PDF library and
    are left out. *)

From Stdlib Require Import QArith Qround ZArith List String Ascii Bool Lia Lqa.
From Stdlib Require Import Permutation.
From stdpp Require Import gmap strings.
Import ListNotations.

#[local] Open Scope string_scope.
#[local] Open Scope list_scope.

(** ** Exceptions and results *)

Inductive exn : Type :=
| TypeError
| KeyError
| IndexError
| AttributeError
| ValueError
| OSError.

Inductive res (A : Type) : Type :=
| Ok (a : A)
| Raise (e : exn).

Arguments Ok {A} a.
Arguments Raise {A} e.

Definition bind {A B : Type} (m : res A) (k : A -> res B) : res B :=
  match m with
  | Ok a => k a
  | Raise e => Raise e
  end.

Notation "'let*' x ':=' m 'in' k" :=
  (bind m (fun x => k))
  (at level 10, x name, m at level 100, k at level 200).

(** [a and b] on conditions that can raise: [b] is not evaluated when [a]
    is false. *)
Definition and_then (a b : res bool) : res bool :=
  let* x := a in if x then b else Ok false.

(** A list comprehension [[f(x) for x in l]]. *)
Fixpoint mapM {A B : Type} (f : A -> res B) (l : list A) : res (list B) :=
  match l with
  | [] => Ok []
  | x :: r =>
      let* y := f x in
      let* ys := mapM f r in
      Ok (y :: ys)
  end.

(** A list comprehension [[x for x in l if p(x)]]. *)
Fixpoint filterM {A : Type} (p : A -> res bool) (l : list A) : res (list A) :=
  match l with
  | [] => Ok []
  | x :: r =>
      let* b := p x in
      let* ys := filterM p r in
      Ok (if b then x :: ys else ys)
  end.

(** A loop whose body appends to an output list. *)
Fixpoint concatM {A B : Type} (f : A -> res (list B)) (l : list A)
  : res (list B) :=
  match l with
  | [] => Ok []
  | x :: r =>
      let* y := f x in
      let* ys := concatM f r in
      Ok (y ++ ys)
  end.

(** ** JSON values, as [json.load] builds them

    A [dict] keeps its keys in insertion order; it is an association list
    (in a parsed document the keys are distinct). [JNull] is [None]. *)

#[warnings="-register-all"]
Inductive json : Type :=
| JNull
| JBool (b : bool)
| JNum (q : Q)
| JStr (s : string)
| JArr (l : list json)
| JObj (kvs : list (string * json)).

(** ** The Python operations the scripts use *)

Module Py.

Fixpoint lookup_key (k : string) (kvs : list (string * json)) : option json :=
  match kvs with
  | [] => None
  | (k', v) :: r => if String.eqb k k' then Some v else lookup_key k r
  end.

Definition chars (s : string) : list json :=
  map (fun c => JStr (String c EmptyString)) (list_ascii_of_string s).

(** [bool(v)] *)
Definition truthy (v : json) : bool :=
  match v with
  | JNull => false
  | JBool b => b
  | JNum q => negb (Qeq_bool q 0)
  | JStr s => negb (String.eqb s "")
  | JArr l => match l with [] => false | _ => true end
  | JObj kvs => match kvs with [] => false | _ => true end
  end.

Definition is_str (k : string) (v : json) : bool :=
  match v with
  | JStr s => String.eqb s k
  | _ => false
  end.

Definition is_substring (k s : string) : bool :=
  match String.index 0 k s with
  | Some _ => true
  | None => false
  end.

(** [k in c] for a string [k] *)
Definition contains (k : string) (c : json) : res bool :=
  match c with
  | JObj kvs => Ok (match lookup_key k kvs with Some _ => true | None => false end)
  | JArr l => Ok (existsb (is_str k) l)
  | JStr s => Ok (is_substring k s)
  | _ => Raise TypeError
  end.

(** [c[k]] for a string [k] *)
Definition getitem (c : json) (k : string) : res json :=
  match c with
  | JObj kvs =>
      match lookup_key k kvs with
      | Some v => Ok v
      | None => Raise KeyError
      end
  | _ => Raise TypeError
  end.

(** [c.get(k, d)] *)
Definition get (c : json) (k : string) (d : json) : res json :=
  match c with
  | JObj kvs =>
      match lookup_key k kvs with
      | Some v => Ok v
      | None => Ok d
      end
  | _ => Raise AttributeError
  end.

(** [isinstance(v, dict)] *)
Definition is_dict (v : json) : bool :=
  match v with
  | JObj _ => true
  | _ => false
  end.

(** [len(c)] *)
Definition len (c : json) : res nat :=
  match c with
  | JStr s => Ok (String.length s)
  | JArr l => Ok (List.length l)
  | JObj kvs => Ok (List.length kvs)
  | _ => Raise TypeError
  end.

(** [l[i]] on a Python list, [0 <= i] *)
Definition list_index {A : Type} (l : list A) (i : nat) : res A :=
  match nth_error l i with
  | Some v => Ok v
  | None => Raise IndexError
  end.

(** [c[i]] for an integer [0 <= i]; a parsed dict has string keys only. *)
Definition index (c : json) (i : nat) : res json :=
  match c with
  | JArr l => list_index l i
  | JStr s => list_index (chars s) i
  | JObj _ => Raise KeyError
  | _ => Raise TypeError
  end.

(** [for x in c] *)
Definition iter (c : json) : res (list json) :=
  match c with
  | JArr l => Ok l
  | JStr s => Ok (chars s)
  | JObj kvs => Ok (map (fun kv => JStr (fst kv)) kvs)
  | _ => Raise TypeError
  end.

(** [range(start, stop, step)], [0 < step] *)
Definition range (start stop step : nat) : list nat :=
  map (fun k => start + k * step)%nat
      (seq 0 ((stop - start + (step - 1)) / step)).

(** The number a value stands for in arithmetic and comparisons. *)
Definition as_num (v : json) : res Q :=
  match v with
  | JNum q => Ok q
  | JBool b => Ok (if b then 1 else 0)%Q
  | _ => Raise TypeError
  end.

Definition Qlt_bool (x y : Q) : bool := negb (Qle_bool y x).

(** [max(l)]: the first item is kept until a greater one is met. *)
Definition max (l : list Q) : res Q :=
  match l with
  | [] => Raise ValueError
  | x :: r => Ok (fold_left (fun m item => if Qlt_bool m item then item else m) r x)
  end.

(** [min(l)] *)
Definition min (l : list Q) : res Q :=
  match l with
  | [] => Raise ValueError
  | x :: r => Ok (fold_left (fun m item => if Qlt_bool item m then item else m) r x)
  end.

(** [a + b] *)
Definition add (a b : json) : res Q :=
  let* x := as_num a in
  let* y := as_num b in
  Ok (x + y)%Q.

(** [a * f] for a float [f] *)
Definition mul (a : json) (f : Q) : res Q :=
  let* x := as_num a in
  Ok (x * f)%Q.

(** [a >= b] *)
Definition ge (a b : json) : res bool :=
  let* x := as_num a in
  let* y := as_num b in
  Ok (Qle_bool y x).

(** [a < b] *)
Definition lt (a b : json) : res bool :=
  let* x := as_num a in
  let* y := as_num b in
  Ok (Qlt_bool x y).

(** [sep.join(l)]: every item has to be a [str]. *)
Fixpoint join (sep : string) (l : list json) : res string :=
  match l with
  | [] => Ok ""
  | JStr s :: r =>
      match r with
      | [] => Ok s
      | _ => let* t := join sep r in Ok (s ++ sep ++ t)%string
      end
  | _ :: _ => Raise TypeError
  end.

End Py.

(** ** [remove_furigana.py]: helper functions *)

Definition FURIGANA_HEIGHT_THRESHOLD_PERCENT : Q := 70.
Definition MAIN_TEXT_BENCHMARK_PERCENTILE : Q := 90.

Definition get_polygon_height (polygon : json) : res Q :=
  if negb (Py.truthy polygon) then Ok 0%Q
  else
    let* n := Py.len polygon in
    if (n <? 8)%nat then Ok 0%Q
    else
      let* y_coords := mapM (Py.index polygon) (Py.range 1 n 2) in
      let* ys := mapM Py.as_num y_coords in
      let* hi := Py.max ys in
      let* lo := Py.min ys in
      Ok (hi - lo)%Q.

Definition get_pages_from_json (data : json) : res json :=
  let* c1 := and_then (Py.contains "pages" data)
                      (let* v := Py.getitem data "pages" in Ok (Py.truthy v)) in
  if c1 then Py.getitem data "pages"
  else
    let* c2 :=
      and_then (Py.contains "analyzeResult" data)
        (and_then (let* a := Py.get data "analyzeResult" JNull in Ok (Py.is_dict a))
                  (let* a := Py.getitem data "analyzeResult" in Py.contains "pages" a)) in
    if c2 then
      let* a := Py.getitem data "analyzeResult" in Py.getitem a "pages"
    else
      let* c3 := and_then (Py.contains "readResults" data)
                          (let* v := Py.getitem data "readResults" in Ok (Py.truthy v)) in
      if c3 then Py.getitem data "readResults"
      else Ok (JArr []).

Definition get_item_poly (item : json) : res json :=
  let* p := Py.get item "polygon" JNull in
  if Py.truthy p then Ok p else Py.get item "boundingBox" JNull.

Definition get_item_text (item : json) : res json :=
  let* t := Py.get item "content" JNull in
  if Py.truthy t then Ok t else Py.get item "text" JNull.

(** ** [remove_furigana.py]: [process_full_workflow], stage 2

    The rebuilt PDF is the document-graphics backend's; of it the model
    keeps the number of pages [n_pdf_pages] and the calls of [insert_text]
    ([fontname], [fontsize=11] and [render_mode=3] are constants). *)

Record insertion : Type := {
  ins_page : nat;      (* index of the page of [clean_base_doc] *)
  ins_x : Q;           (* [scaled_points[6]] *)
  ins_y : Q;           (* [scaled_points[7]] *)
  ins_text : json      (* [word_text] *)
}.

(** An item of [rag_output["content_chunks"]]; its ["type"] is the
    constant ["page_content"]. *)
Record chunk : Type := {
  page_number : json;
  content : string
}.

Definition newline : string := String "010"%char EmptyString.

(** Line 74. *)
Definition line_height (line : json) : res Q :=
  let* poly := get_item_poly line in get_polygon_height poly.

Definition main_text_lines (page_data : json) (height_cutoff : Q)
  : res (list json) :=
  let* ls := Py.get page_data "lines" (JArr []) in
  let* lines := Py.iter ls in
  filterM (fun line => let* h := line_height line in Ok (Qle_bool height_cutoff h))
          lines.

(** Line 76. *)
Definition page_text_for_rag (mtl : list json) : res string :=
  let* texts :=
    concatM (fun line =>
               let* c := get_item_text line in
               if Py.truthy c then let* t := get_item_text line in Ok [t]
               else Ok [])
            mtl in
  Py.join newline texts.

(** Lines 77-78: what is appended to [content_chunks]. *)
Definition page_chunk (page_num : json) (text : string)
  : list chunk :=
  if Py.truthy (JStr text)
  then [ {| page_number := page_num; content := text |} ]
  else [].

(** Line 84. *)
Definition word_start (word : json) : res json :=
  let* word_span := Py.get word "span" (JObj []) in
  Py.get word_span "offset" (JNum (-1)).

(** Line 82: [line_start] and [line_end]. *)
Definition span_bounds (line_span : json) : res (json * Q) :=
  let* line_start := Py.getitem line_span "offset" in
  let* o := Py.getitem line_span "offset" in
  let* l := Py.getitem line_span "length" in
  let* line_end := Py.add o l in
  Ok (line_start, line_end).

(** Line 85. *)
Definition word_in_span (word line_start : json) (line_end : Q) : res bool :=
  let* ws := word_start word in
  and_then (Py.ge ws line_start) (Py.lt ws (JNum line_end)).

(** Lines 86-89. *)
Definition insert_word (i : nat) (scale_factor : Q) (word : json)
  : res (list insertion) :=
  let* word_poly := get_item_poly word in
  let* word_text := get_item_text word in
  if negb (Py.truthy word_poly) || negb (Py.truthy word_text) then Ok []
  else
    let* pts := Py.iter word_poly in
    let* scaled_points := mapM (fun p => Py.mul p scale_factor) pts in
    let* x := Py.list_index scaled_points 6 in
    let* y := Py.list_index scaled_points 7 in
    Ok [ {| ins_page := i; ins_x := x; ins_y := y; ins_text := word_text |} ].

(** Lines 81-85: the two inner loops and their test, with the guarded
    statements (lines 86-89) as [body]. *)
Definition words_of_span {B : Type} (body : json -> res (list B))
    (page_data line_span : json) : res (list B) :=
  let* bounds := span_bounds line_span in
  let* ws := Py.get page_data "words" (JArr []) in
  let* words := Py.iter ws in
  concatM (fun word =>
             let* hit := word_in_span word (fst bounds) (snd bounds) in
             if hit then body word else Ok [])
          words.

Definition words_of_line {B : Type} (body : json -> res (list B))
    (page_data line : json) : res (list B) :=
  let* ss := Py.get line "spans" (JArr []) in
  let* spans := Py.iter ss in
  concatM (words_of_span body page_data) spans.

(** Lines 81-89, for one main-text line. *)
Definition line_words (i : nat) (scale_factor : Q) (page_data line : json)
  : res (list insertion) :=
  words_of_line (insert_word i scale_factor) page_data line.

(** The words that reach line 86 for a line, in the order of the loops. *)
Definition associated_words (page_data line : json) : res (list json) :=
  words_of_line (fun word => Ok [word]) page_data line.

(** Lines 72-89: the body of the page loop after the [break] test. *)
Definition process_page (i : nat) (scale_factor height_cutoff : Q)
    (page_data page_num : json) : res (list chunk * list insertion) :=
  let* mtl := main_text_lines page_data height_cutoff in
  let* text := page_text_for_rag mtl in
  let* ins := concatM (line_words i scale_factor page_data) mtl in
  Ok (page_chunk page_num text, ins).

(** Lines 68-89. *)
Fixpoint pages_loop (n_pdf_pages : nat) (scale_factor height_cutoff : Q)
    (i : nat) (pages : list json) : res (list chunk * list insertion) :=
  match pages with
  | [] => Ok ([], [])
  | page_data :: rest =>
      let* page_num := Py.getitem page_data "pageNumber" in
      if (n_pdf_pages <=? i)%nat then Ok ([], [])
      else
        let* here := process_page i scale_factor height_cutoff page_data page_num in
        let* later := pages_loop n_pdf_pages scale_factor height_cutoff (S i) rest in
        Ok (fst here ++ fst later, snd here ++ snd later)
  end.

(** Line 64. *)
Definition scale_factor_of (pages_data : json) : res Q :=
  let* first := Py.index pages_data 0 in
  let* u := Py.get first "unit" JNull in
  Ok (if Py.is_str "inch" u then 72 else 1)%Q.

(** What the function writes: the image-only PDF of line 61, or the PDF
    with its text layer; the RAG JSON is written when [content_chunks] is
    not empty (line 94). *)
Inductive written : Type :=
| ImageOnly
| Rebuilt (text_layer : list insertion) (content_chunks : list chunk).

(** Lines 59-96, on the parsed OCR result [data]. *)
Definition process_full_workflow (n_pdf_pages : nat) (data : json)
    (height_cutoff : Q) : res written :=
  let* pages_data := get_pages_from_json data in
  if negb (Py.truthy pages_data) then Ok ImageOnly
  else
    let* scale_factor := scale_factor_of pages_data in
    let* pages := Py.iter pages_data in
    let* r := pages_loop n_pdf_pages scale_factor height_cutoff 0 pages in
    Ok (Rebuilt (snd r) (fst r)).

(** ** [remove_furigana.py]: the global analysis of [main] *)

(** [numpy.percentile(a, q)] with its default method, linear interpolation
    between the two closest ranks of the sorted data; [a] is not empty. *)
Fixpoint insert_sorted (x : Q) (l : list Q) : list Q :=
  match l with
  | [] => [x]
  | y :: r => if Qle_bool x y then x :: l else y :: insert_sorted x r
  end.

Definition sort (l : list Q) : list Q := fold_right insert_sorted [] l.

Definition np_percentile (a : list Q) (q : Q) : Q :=
  let s := sort a in
  let n := List.length a in
  let virtual_index := (inject_Z (Z.of_nat n - 1) * (q / 100))%Q in
  let previous := Qfloor virtual_index in
  let gamma := (virtual_index - inject_Z previous)%Q in
  let lo := nth (Z.to_nat previous) s 0%Q in
  let hi := nth (Nat.min (Z.to_nat previous + 1) (n - 1)) s 0%Q in
  (lo + (hi - lo) * gamma)%Q.

(** What [json.load] gives for the JSON file of a pair. *)
Inductive loaded : Type :=
| LoadError
| Loaded (data : json).

Record FilePair : Type := {
  json_path : string;
  json_file : loaded
}.

(** The messages of the analysis. *)
Inductive message : Type :=
| WarnCouldNotParse (json_path : string)   (* line 166 *)
| ErrNoTextLines                           (* line 168 *)
| InfoCutoff (global_height_cutoff : Q)    (* line 177 *)
| WarnNoValidHeights.                      (* line 179 *)

(** Line 164: [all_lines] keeps what was added before an exception. *)
Fixpoint extend_lines (pages all_lines : list json) : list json * option exn :=
  match pages with
  | [] => (all_lines, None)
  | page :: rest =>
      match (let* ls := Py.get page "lines" (JArr []) in Py.iter ls) with
      | Ok ls => extend_lines rest (all_lines ++ ls)
      | Raise e => (all_lines, Some e)
      end
  end.

(** Lines 160-166, for one pair. *)
Definition pool_pair (st : list json * list message) (pair : FilePair)
  : list json * list message :=
  let (all_lines, out) := st in
  let warned := (all_lines, out ++ [WarnCouldNotParse (json_path pair)]) in
  match json_file pair with
  | LoadError => warned
  | Loaded data =>
      match get_pages_from_json data with
      | Raise _ => warned
      | Ok pages =>
          if Py.truthy pages then
            match Py.iter pages with
            | Raise _ => warned
            | Ok ps =>
                match extend_lines ps all_lines with
                | (all_lines', None) => (all_lines', out)
                | (all_lines', Some _) =>
                    (all_lines', out ++ [WarnCouldNotParse (json_path pair)])
                end
            end
          else (all_lines, out)
      end
  end.

(** Lines 158-166. *)
Definition pool_lines (file_pairs : list FilePair) : list json * list message :=
  fold_left pool_pair file_pairs ([], []).

(** How the analysis ends: [sys.exit], an exception nobody catches, or the
    cutoff that the second loop of [main] hands to every document. *)
Inductive outcome : Type :=
| SysExit (code : Z)
| Uncaught (e : exn)
| Calibrated (global_height_cutoff : Q).

(** Lines 170-179, on a pool that is not empty. *)
Definition cutoff_of_heights (heights : list Q) : Q * list message :=
  let all_heights := List.filter (Py.Qlt_bool 0) heights in
  match all_heights with
  | _ :: _ =>
      let main_text_height_benchmark :=
        np_percentile all_heights MAIN_TEXT_BENCHMARK_PERCENTILE in
      let c := (main_text_height_benchmark
                * (FURIGANA_HEIGHT_THRESHOLD_PERCENT / 100))%Q in
      (c, [InfoCutoff c])
  | [] => (0%Q, [WarnNoValidHeights])
  end.

(** Lines 158-179. *)
Definition global_analysis (file_pairs : list FilePair) : outcome * list message :=
  let (all_lines, out) := pool_lines file_pairs in
  match all_lines with
  | [] => (SysExit 1, out ++ [ErrNoTextLines])
  | _ :: _ =>
      match mapM line_height all_lines with
      | Raise e => (Uncaught e, out)
      | Ok heights =>
          let (c, msgs) := cutoff_of_heights heights in
          (Calibrated c, out ++ msgs)
      end
  end.

(** ** [remove_furigana.py]: [generate_rag_json_only]

    Writing the output file is taken to succeed. *)

(** Line 111. *)
Definition page_paras (page_data : json) : res (list json) :=
  let* ps := Py.get page_data "paragraphs" (JArr []) in
  let* paras := Py.iter ps in
  concatM (fun para =>
             let* c := get_item_text para in
             if Py.truthy c then let* t := get_item_text para in Ok [t]
             else Ok [])
          paras.

(** Lines 111-113: what one page appends to [content_chunks]. *)
Definition paragraph_chunk (page_data : json) : res (list chunk) :=
  let* paras := page_paras page_data in
  match paras with
  | [] => Ok []
  | _ :: _ =>
      let* n := Py.get page_data "pageNumber" JNull in
      let* text := Py.join (newline ++ newline)%string paras in
      Ok [ {| page_number := n; content := text |} ]
  end.

(** Lines 106-117, on the parsed OCR result: the chunks of the RAG JSON
    that is written, or [None] when no file is written. *)
Definition rag_chunks (data : json) : res (option (list chunk)) :=
  let* pages_data := get_pages_from_json data in
  if negb (Py.truthy pages_data) then Ok None
  else
    let* pages := Py.iter pages_data in
    let* chunks := concatM paragraph_chunk pages in
    Ok (match chunks with [] => None | _ :: _ => Some chunks end).

Inductive rag_message : Type :=
| ErrUnexpected (json_path : string).   (* line 120 *)

(** Lines 104-120: the [except] clause catches every exception. *)
Definition generate_rag_json_only (pair : FilePair)
  : option (list chunk) * list rag_message :=
  match json_file pair with
  | LoadError => (None, [ErrUnexpected (json_path pair)])
  | Loaded data =>
      match rag_chunks data with
      | Ok w => (w, [])
      | Raise _ => (None, [ErrUnexpected (json_path pair)])
      end
  end.

(** ** [remove_furigana.py]: the two modes of [main]

    The font is taken to be found and every PDF to open; a pair comes with
    the number of pages of its PDF. *)

(** Line 187 for one pair: line 58 parses the JSON file again, inside a
    [try] that has no [except]. *)
Definition process_pair (pair : FilePair) (n_pdf_pages : nat)
    (height_cutoff : Q) : res written :=
  match json_file pair with
  | LoadError => Raise ValueError
  | Loaded data => process_full_workflow n_pdf_pages data height_cutoff
  end.

(** Lines 183-187: the loop stops at the first exception. *)
Fixpoint process_all (docs : list (FilePair * nat)) (height_cutoff : Q)
  : list written * option exn :=
  match docs with
  | [] => ([], None)
  | (file_pair, n) :: rest =>
      match process_pair file_pair n height_cutoff with
      | Raise e => ([], Some e)
      | Ok w =>
          let (ws, e) := process_all rest height_cutoff in (w :: ws, e)
      end
  end.

(** How a run of [main] ends. *)
Inductive run_end : Type :=
| Completed
| Exited (code : Z)
| Died (e : exn).

(** Lines 145-187: the full mode, what it writes for the pairs in turn and
    how it ends. *)
Definition main_full_mode (docs : list (FilePair * nat))
  : list written * run_end :=
  match fst (global_analysis (map fst docs)) with
  | SysExit code => ([], Exited code)
  | Uncaught e => ([], Died e)
  | Calibrated c =>
      match process_all docs c with
      | (ws, None) => (ws, Completed)
      | (ws, Some e) => (ws, Died e)
      end
  end.

(** Lines 189-194: the RAG-only mode. *)
Definition main_rag_only_mode (file_pairs : list FilePair)
  : list (option (list chunk) * list rag_message) :=
  map generate_rag_json_only file_pairs.

(** ** [remove_ocr_textlayer.py]: [rebuild_from_images]

    The file system is a finite map from paths to file contents.  The
    calls into PyMuPDF, [shutil] and [pathlib] are parameters of the model:
    each tells whether the call returns or raises, and what it leaves on
    disk.  A call that raises leaves the files it did not write as they
    were; [os.remove] of an existing file succeeds. *)

Module RemoveOcrTextlayer.

Definition bytes : Type := string.

Record placed : Type := {
  img_rect : Q * Q * Q * Q;   (* [get_image_bbox(img_info)] *)
  img_bytes : bytes           (* [extract_image(xref)["image"]] *)
}.

(** A page of [original_doc]: lines 40-46 ([new_page], [get_images]) raise
    or list the images, and for each image lines 55-62 raise or place it
    on the new page. *)
Record page : Type := {
  width : Q;
  height : Q;
  get_images : res (list (res placed))
}.

Record new_page : Type := {
  np_width : Q;
  np_height : Q;
  np_images : list placed
}.

(** What [new_doc.save(temp_output_path)] does: it writes the file, or it
    raises and may leave a file behind. *)
Inductive save_result : Type :=
| Saved (written : bytes)
| SaveRaises (left_behind : option bytes).

Record backend : Type := {
  with_suffix : string -> string -> string;   (* [Path.with_suffix] *)
  copy2_ok : bool;                            (* [shutil.copy2] returns *)
  fitz_open : bytes -> res (list page);       (* [fitz.open(path)] *)
  save : list new_page -> save_result;        (* [new_doc.save] *)
  move_ok : bool                              (* [shutil.move] returns *)
}.

Inductive message : Type :=
| Skip                      (* line 20 *)
| CreatingBackup            (* line 25 *)
| WarnNoImages (i : nat)    (* line 48 *)
| WarnImage (i : nat)       (* line 64 *)
| SavingNewPdf              (* line 66 *)
| ErrorFailed               (* line 70 *)
| Replacing                 (* line 78 *)
| Success                   (* line 80 *)
| ErrorReplace.             (* line 82 *)

(** Lines 51-64. *)
Fixpoint place_images (i : nat) (img_list : list (res placed))
  : list placed * list message :=
  match img_list with
  | [] => ([], [])
  | img :: rest =>
      let (ps, out) := place_images i rest in
      match img with
      | Ok p => (p :: ps, out)
      | Raise _ => (ps, WarnImage i :: out)
      end
  end.

(** Lines 36-64: what is printed, and the pages of [new_doc] unless a
    call of lines 40-46 raises. *)
Fixpoint rebuild_pages (i : nat) (original_doc : list page)
  : list message * res (list new_page) :=
  match original_doc with
  | [] => ([], Ok [])
  | original_page :: rest =>
      match get_images original_page with
      | Raise e => ([], Raise e)
      | Ok img_list =>
          let (imgs, out) :=
            match img_list with
            | [] => ([], [WarnNoImages (S i)])
            | _ :: _ => place_images (S i) img_list
            end in
          let (out', later) := rebuild_pages (S i) rest in
          (out ++ out',
           let* new_pages := later in
           Ok ({| np_width := width original_page;
                  np_height := height original_page;
                  np_images := imgs |} :: new_pages))
      end
  end.

(** [if temp_output_path.exists(): os.remove(temp_output_path)] *)
Definition remove_if_exists (path : string) (files : gmap string bytes)
  : gmap string bytes :=
  match files !! path with
  | Some _ => delete path files
  | None => files
  end.

(** The state of the function when it returns or raises. *)
Record result : Type := {
  files_after : gmap string bytes;
  printed : list message;
  raised : option exn
}.

(** Lines 32-67: the [try] block up to [new_doc.save]. *)
Definition rebuilt (B : backend) (original : bytes)
  : list message * res (list new_page) :=
  match fitz_open B original with
  | Raise e => ([], Raise e)
  | Ok original_doc => rebuild_pages 0 original_doc
  end.

(** Lines 28-83, after the backup. *)
Definition rebuild_and_replace (B : backend) (pdf_path : string)
    (original : bytes) (files : gmap string bytes) (out : list message)
  : result :=
  let temp_output_path := with_suffix B pdf_path ".tmp.pdf" in
  match rebuilt B original with
  | (warnings, Raise _) =>
      {| files_after := remove_if_exists temp_output_path files;
         printed := out ++ warnings ++ [ErrorFailed];
         raised := None |}
  | (warnings, Ok new_doc) =>
      let out := out ++ warnings ++ [SavingNewPdf] in
      match save B new_doc with
      | SaveRaises left_behind =>
          let files :=
            match left_behind with
            | Some partial => <[temp_output_path := partial]> files
            | None => files
            end in
          {| files_after := remove_if_exists temp_output_path files;
             printed := out ++ [ErrorFailed];
             raised := None |}
      | Saved written =>
          let files := <[temp_output_path := written]> files in
          if move_ok B then
            {| files_after := <[pdf_path := written]> (delete temp_output_path files);
               printed := out ++ [Replacing; Success];
               raised := None |}
          else
            {| files_after := remove_if_exists temp_output_path files;
               printed := out ++ [Replacing; ErrorReplace];
               raised := None |}
      end
  end.

(** Lines 19-83. *)
Definition rebuild_from_images (B : backend) (pdf_path : string)
    (create_backup : bool) (files : gmap string bytes) : result :=
  match files !! pdf_path with
  | None => {| files_after := files; printed := [Skip]; raised := None |}
  | Some original =>
      if create_backup then
        let backup_path := with_suffix B pdf_path ".bak.pdf" in
        if copy2_ok B then
          rebuild_and_replace B pdf_path original
            (<[backup_path := original]> files) [CreatingBackup]
        else
          {| files_after := files; printed := [CreatingBackup];
             raised := Some OSError |}
      else rebuild_and_replace B pdf_path original files []
  end.

(** An error during rebuilding or saving that the [except] clause of
    line 69 handles. *)
Definition rebuild_error (B : backend) (original : bytes) : Prop :=
  match rebuilt B original with
  | (_, Raise _) => True
  | (_, Ok new_doc) =>
      match save B new_doc with
      | SaveRaises _ => True
      | Saved _ => False
      end
  end.

End RemoveOcrTextlayer.


(** ** [remove_ocr_textlayer.py]: [main] *)

Module RemoveOcrTextlayerMain.
Import RemoveOcrTextlayer.

(** [name.endswith(suffix)] *)
Definition endswith (name suffix : string) : bool :=
  (String.length suffix <=? String.length name)%nat &&
  String.eqb (String.substring (String.length name - String.length suffix)
                               (String.length suffix) name)
             suffix.

(** Line 99, on the names that [glob('*.pdf')] lists. *)
Definition pdf_files (listed : list string) : list string :=
  List.filter (fun f => negb (endswith f ".bak.pdf" || endswith f ".tmp.pdf"))
              listed.

(** Lines 116-118: the loop stops when a call raises. *)
Fixpoint rebuild_all (B : backend) (pdf_files : list string) (backup : bool)
    (files : gmap string bytes) : result :=
  match pdf_files with
  | [] => {| files_after := files; printed := []; raised := None |}
  | pdf_file :: rest =>
      let r := rebuild_from_images B pdf_file backup files in
      match raised r with
      | Some e => r
      | None =>
          let r' := rebuild_all B rest backup (files_after r) in
          {| files_after := files_after r';
             printed := printed r ++ printed r';
             raised := raised r' |}
      end
  end.

End RemoveOcrTextlayerMain.

(** * Vocabulary of the properties *)

(** ** Polygons and heights *)

(** The y coordinates of a flat polygon [x0, y0, x1, y1, ...]: the items at
    the odd indices. *)
Fixpoint y_coordinates (polygon : list Q) : list Q :=
  match polygon with
  | _ :: y :: r => y :: y_coordinates r
  | _ => []
  end.

Definition greatest (m : Q) (l : list Q) : Prop :=
  In m l /\ Forall (fun y => (y <= m)%Q) l.

Definition least (m : Q) (l : list Q) : Prop :=
  In m l /\ Forall (fun y => (m <= y)%Q) l.

(** A polygon as the OCR result holds it. *)
Definition numbers (l : list Q) : json := JArr (map JNum l).

(** Two lists of numbers that are equal item by item, as rationals. *)
Definition same_numbers (a b : list Q) : Prop := List.Forall2 Qeq a b.

(** ** Page extraction *)

(** What [get_pages_from_json] returns on a JSON object, branch by
    branch. *)
Definition read_results_of (kvs : list (string * json)) : json :=
  match Py.lookup_key "readResults" kvs with
  | Some v => if Py.truthy v then v else JArr []
  | None => JArr []
  end.

Definition analyze_result_of (kvs : list (string * json)) : json :=
  match Py.lookup_key "analyzeResult" kvs with
  | Some (JObj a) =>
      match Py.lookup_key "pages" a with
      | Some v => v
      | None => read_results_of kvs
      end
  | _ => read_results_of kvs
  end.

Definition pages_of (kvs : list (string * json)) : json :=
  match Py.lookup_key "pages" kvs with
  | Some v => if Py.truthy v then v else analyze_result_of kvs
  | None => analyze_result_of kvs
  end.

(** ** Words, lines and the text layer *)

(** The span [line_span] starts at offset [o] and has length [n]. *)
Definition span_is (line_span : json) (o n : Q) : Prop :=
  Py.getitem line_span "offset" = Ok (JNum o) /\
  Py.getitem line_span "length" = Ok (JNum n).

(** The span of [word] starts at offset [w]. *)
Definition word_offset_is (word : json) (w : Q) : Prop :=
  exists sp, Py.getitem word "span" = Ok sp /\
             Py.getitem sp "offset" = Ok (JNum w).

(** The line is a main-text line: its height is at least the cutoff. *)
Definition tall_enough (height_cutoff : Q) (line : json) : bool :=
  match line_height line with
  | Ok h => Qle_bool height_cutoff h
  | Raise _ => false
  end.

(** The page has a number, and the height of each of its lines is below
    the cutoff. *)
Definition no_main_text (height_cutoff : Q) (page_data : json) : Prop :=
  (exists num, Py.getitem page_data "pageNumber" = Ok num) /\
  exists lines,
    Py.get page_data "lines" (JArr []) = Ok (JArr lines) /\
    Forall (fun line => exists h, line_height line = Ok h /\ (h < height_cutoff)%Q)
           lines.

(** The texts of the lines that have a non-empty text, in order. *)
Fixpoint nonempty_texts (lines : list json) : list string :=
  match lines with
  | [] => []
  | line :: r =>
      match get_item_text line with
      | Ok (JStr s) =>
          if String.eqb s "" then nonempty_texts r else s :: nonempty_texts r
      | _ => nonempty_texts r
      end
  end.

(** [word] is one of [page_data.get("words", [])]. *)
Definition word_of_page (page_data word : json) : Prop :=
  exists ws words,
    Py.get page_data "words" (JArr []) = Ok ws /\
    Py.iter ws = Ok words /\ In word words.

(** [ins] places the text of [word] at the items 6 and 7 of the word's
    polygon, each multiplied by [sf]. *)
Definition placed_at (sf : Q) (word : json) (ins : insertion) : Prop :=
  exists poly p6 p7 q6 q7,
    get_item_poly word = Ok (JArr poly) /\
    nth_error poly 6 = Some p6 /\ nth_error poly 7 = Some p7 /\
    Py.as_num p6 = Ok q6 /\ Py.as_num p7 = Ok q7 /\
    ins_x ins = (q6 * sf)%Q /\ ins_y ins = (q7 * sf)%Q /\
    get_item_text word = Ok (ins_text ins).

(** ** The global analysis *)

(** The analysis ends the process: by [sys.exit], or by an exception that
    nothing catches. *)
Definition fatal (o : outcome) : Prop :=
  match o with
  | SysExit _ | Uncaught _ => True
  | Calibrated _ => False
  end.

(** Line 170 raises on the line: its height cannot be computed. *)
Definition height_fails (line : json) : Prop :=
  exists e, line_height line = Raise e.

(** The lines that one pair adds to the pool. *)
Definition document_lines (pair : FilePair) : list json :=
  fst (pool_pair ([], []) pair).

(** ** The image rebuild *)

Module RemoveOcrTextlayerTerms.
Import RemoveOcrTextlayer.

(** The images that lines 55-62 place, in order. *)
Fixpoint extracted (img_list : list (res placed)) : list placed :=
  match img_list with
  | [] => []
  | Ok p :: rest => p :: extracted rest
  | Raise _ :: rest => extracted rest
  end.

(** [np] has the size of [original_page] and its images that could be
    extracted. *)
Definition copy_of (original_page : page) (np : new_page) : Prop :=
  np_width np = width original_page /\
  np_height np = height original_page /\
  exists img_list,
    get_images original_page = Ok img_list /\
    np_images np = extracted img_list.

End RemoveOcrTextlayerTerms.

(** * Example inputs *)

Definition span_json (o n : Q) : json :=
  JObj [("offset", JNum o); ("length", JNum n)].

Definition line_json (poly : list Q) (text : string) (spans : list json) : json :=
  JObj [("polygon", numbers poly); ("content", JStr text); ("spans", JArr spans)].

Definition word_json (poly : list Q) (text : string) (offset : Q) : json :=
  JObj [("polygon", numbers poly); ("content", JStr text);
        ("span", span_json offset 1)].

Definition page_json (n : Q) (unit : string) (lines words : list json) : json :=
  JObj [("pageNumber", JNum n); ("unit", JStr unit);
        ("lines", JArr lines); ("words", JArr words)].

(** A box of height 30 and one of height 15. *)
Definition tall : list Q := [0; 0; 10; 0; 10; 30; 0; 30]%Q.
Definition small : list Q := [0; 0; 10; 0; 10; 15; 0; 15]%Q.

(** The second page is in inches, the first is not. *)
Definition inch_page : json :=
  page_json 2 "inch" [line_json tall "a" [span_json 0 1]]
            [word_json [1; 1; 2; 1; 2; 2; 1; 2]%Q "a" 0].

Definition two_unit_document : json :=
  JObj [("pages", JArr [page_json 1 "pixel" [] []; inch_page])].

(** A word whose box is given by four numbers. *)
Definition short_polygon_document : json :=
  JObj [("pages",
         JArr [page_json 1 "pixel" [line_json tall "a" [span_json 0 1]]
                         [word_json [1; 2; 3; 4]%Q "a" 0]])].

Definition inch_document : json :=
  JObj [("pages",
         JArr [page_json 1 "inch" [line_json tall "a" [span_json 0 1]]
                         [word_json [1; 1; 1; 1; 1; 1; 1; 1]%Q "a" 0]])].

(** A furigana line above a main-text line, a main-text line without text
    and a second main-text line. *)
Definition furigana_page : json :=
  page_json 1 "pixel"
    [line_json small "ka" [span_json 0 2];
     line_json tall "kanji" [span_json 3 5];
     line_json tall "" [span_json 9 0];
     line_json tall "text" [span_json 10 4]]
    [word_json tall "kanji" 3; word_json small "ka" 0].

(** The boundary example of the specification: a line that covers
    [[10, 20)], one that covers [[20, 25)], a word at offset 15 and one at
    offset 20. *)
Definition word_15 : json := word_json tall "w" 15.
Definition word_20 : json := word_json tall "v" 20.
Definition line_10_20 : json := line_json tall "l" [span_json 10 10].
Definition line_20_25 : json := line_json tall "m" [span_json 20 5].
Definition boundary_page : json :=
  page_json 1 "pixel" [line_10_20; line_20_25] [word_15; word_20].

(** A document of one page whose lines have the given boxes. *)
Definition lines_document (polys : list (list Q)) : json :=
  JObj [("pages",
         JArr [page_json 1 "pixel"
                 (map (fun p => line_json p "x" []) polys) []])].

(** The batch of the specification's end-to-end scenario: a document with
    five lines of height 30, one with four lines of height 30 and a
    furigana line of height 15; between them a file that does not
    parse. *)
Definition scenario : list FilePair :=
  [ {| json_path := "a.json";
       json_file := Loaded (lines_document [tall; tall; tall; tall; tall]) |};
    {| json_path := "broken.json"; json_file := LoadError |};
    {| json_path := "b.json";
       json_file := Loaded (lines_document [tall; tall; small; tall; tall]) |} ].

(** A document whose only line is a string instead of an object. *)
Definition string_line_document : json :=
  JObj [("pages", JArr [page_json 1 "pixel" [JStr "x"] []])].

Definition string_line_pair : FilePair :=
  {| json_path := "s.json"; json_file := Loaded string_line_document |}.

(** A page in the shape of a [readResults] item: its number is under
    ["page"]. *)
Definition read_results_document : json :=
  JObj [("readResults",
         JArr [JObj [("page", JNum 1); ("unit", JStr "pixel");
                     ("lines", JArr [line_json tall "a" [span_json 0 1]])]])].

(** A word without a span. *)
Definition spanless_word : json :=
  JObj [("polygon", numbers tall); ("content", JStr "x")].

Definition spanless_page : json :=
  page_json 1 "pixel" [line_10_20] [word_15; spanless_word].

(** A document whose second page is a string. *)
Definition malformed_document : json :=
  JObj [("pages",
         JArr [page_json 1 "pixel" [line_10_20; line_20_25] []; JStr "oops"])].

Definition malformed_pair : FilePair :=
  {| json_path := "m.json"; json_file := Loaded malformed_document |}.

(** A page with two paragraphs with a text and one without. *)
Definition paragraphs : list json :=
  [JObj [("content", JStr "first")]; JObj [("content", JStr "")];
   JObj [("text", JStr "second")]].

Definition paragraphs_page : json :=
  JObj [("pageNumber", JNum 1); ("paragraphs", JArr paragraphs)].

Definition paragraphs_document : json :=
  JObj [("pages", JArr [paragraphs_page])].

(** The pairs of the scenario with the page counts of their PDFs. *)
Definition scenario_documents : list (FilePair * nat) :=
  map (fun fp => (fp, 1%nat)) scenario.

Module RemoveOcrTextlayerExamples.
Import RemoveOcrTextlayer.

(** [Path.with_suffix] on a path that ends in [.pdf]. *)
Definition pdf_with_suffix (path suffix : string) : string :=
  (String.substring 0 (String.length path - 4) path ++ suffix)%string.

Definition one_image : placed :=
  {| img_rect := (0, 0, 100, 100)%Q; img_bytes := "jpeg" |}.

(** The file with content ["corrupt"] does not open; every other file has
    one page with one image. *)
Definition plain_backend : backend :=
  {| with_suffix := pdf_with_suffix;
     copy2_ok := true;
     fitz_open := fun b =>
       if String.eqb b "corrupt" then Raise ValueError
       else Ok [ {| width := 100; height := 100;
                    get_images := Ok [Ok one_image] |} ];
     save := fun _ => Saved "rebuilt";
     move_ok := true |}.

(** The only image of the page cannot be extracted. *)
Definition lossy_backend : backend :=
  {| with_suffix := pdf_with_suffix;
     copy2_ok := true;
     fitz_open := fun _ =>
       Ok [ {| width := 100; height := 100;
               get_images := Ok [Raise ValueError] |} ];
     save := fun _ => Saved "rebuilt";
     move_ok := true |}.

Definition corrupt_files : gmap string bytes :=
  <["scan.pdf" := "corrupt"]> (<["scan.tmp.pdf" := "stale"]> ∅).

Definition scan_files : gmap string bytes := <["scan.pdf" := "original"]> ∅.

(** [shutil.move] fails. *)
Definition stuck_backend : backend :=
  {| with_suffix := pdf_with_suffix;
     copy2_ok := true;
     fitz_open := fitz_open plain_backend;
     save := fun _ => Saved "rebuilt";
     move_ok := false |}.

(** [shutil.copy2] fails. *)
Definition no_copy_backend : backend :=
  {| with_suffix := pdf_with_suffix;
     copy2_ok := false;
     fitz_open := fitz_open plain_backend;
     save := fun _ => Saved "rebuilt";
     move_ok := true |}.

Definition two_files : gmap string bytes :=
  <["a.pdf" := "first"]> (<["b.pdf" := "second"]> ∅).

(** A page with an image that is placed, one that is not, and a second
    one that is placed. *)
Definition mixed_page : page :=
  {| width := 100; height := 200;
     get_images := Ok [Ok one_image; Raise ValueError; Ok one_image] |}.

End RemoveOcrTextlayerExamples.

(** * Properties *)

(** ** The result monad and its loops *)

Lemma bind_Ok {A B : Type} (m : res A) (k : A -> res B) (b : B) :
  bind m k = Ok b -> exists a, m = Ok a /\ k a = Ok b.
Proof. destruct m as [a|e]; simpl; [eauto | discriminate]. Qed.

Tactic Notation "inv_bind" hyp(H) "as" ident(a) ident(Ha) :=
  apply bind_Ok in H; destruct H as (a & Ha & H).

Tactic Notation "inv_bind" hyp(H) :=
  let a := fresh "v" in
  let Ha := fresh "E" in
  apply bind_Ok in H; destruct H as (a & Ha & H).

Lemma mapM_compose {A B C : Type} (f : B -> res C) (g : A -> B) (l : list A) :
  mapM f (map g l) = mapM (fun x => f (g x)) l.
Proof. induction l as [|x l IH]; simpl; [reflexivity | now rewrite IH]. Qed.

Lemma mapM_ext_in {A B : Type} (f : A -> res B) (g : A -> B) (l : list A) :
  (forall x, In x l -> f x = Ok (g x)) -> mapM f l = Ok (map g l).
Proof.
  induction l as [|x l IH]; intros H; simpl; [reflexivity|].
  rewrite (H x (or_introl eq_refl)); simpl.
  rewrite IH; [reflexivity | intros y Hy; apply H; now right].
Qed.

Lemma mapM_seq_nth_error {B : Type} (f : nat -> res B) (m : list B) (s : nat) :
  (forall k v, nth_error m k = Some v -> f (s + k)%nat = Ok v) ->
  mapM f (seq s (List.length m)) = Ok m.
Proof.
  revert s; induction m as [|b m IH]; intros s H; simpl; [reflexivity|].
  pose proof (H 0%nat b eq_refl) as H0. rewrite Nat.add_0_r in H0.
  rewrite H0; simpl. rewrite IH; [reflexivity|].
  intros k v Hk. replace (S s + k)%nat with (s + S k)%nat by lia.
  now apply H.
Qed.

Lemma mapM_length {A B : Type} (f : A -> res B) (l : list A) (r : list B) :
  mapM f l = Ok r -> List.length r = List.length l.
Proof.
  revert r; induction l as [|x l IH]; intros r H; simpl in H.
  - now inversion H.
  - inv_bind H. inv_bind H. inversion H; subst. simpl. f_equal. now apply IH.
Qed.

Lemma mapM_nth_error {A B : Type} (f : A -> res B) (l : list A) (r : list B)
    (k : nat) (y : B) :
  mapM f l = Ok r -> nth_error r k = Some y ->
  exists x, nth_error l k = Some x /\ f x = Ok y.
Proof.
  revert r k; induction l as [|x l IH]; intros r k H Hk; simpl in H.
  - inversion H; subst. destruct k; discriminate.
  - inv_bind H. inv_bind H. inversion H; subst.
    destruct k as [|k]; simpl in *.
    + inversion Hk; subst. eauto.
    + eapply IH; eauto.
Qed.

Lemma filterM_Ok {A : Type} (p : A -> res bool) (l r : list A) :
  filterM p l = Ok r ->
  Forall (fun x => exists b, p x = Ok b) l /\
  r = List.filter (fun x => match p x with Ok b => b | Raise _ => false end) l.
Proof.
  revert r; induction l as [|x l IH]; intros r H; simpl in H.
  - inversion H; subst. split; [constructor | reflexivity].
  - inv_bind H. inv_bind H. inversion H; subst.
    destruct (IH _ E0) as [Hall Heq]. split.
    + constructor; eauto.
    + simpl. rewrite E. now destruct v; rewrite <- Heq.
Qed.

Lemma concatM_In {A B : Type} (f : A -> res (list B)) (l : list A)
    (r : list B) :
  concatM f l = Ok r ->
  forall y, In y r <-> exists x ys, In x l /\ f x = Ok ys /\ In y ys.
Proof.
  revert r; induction l as [|x l IH]; intros r H y; simpl in H.
  - inversion H; subst. split; [intros [] | intros (x & ys & [] & _)].
  - inv_bind H. inv_bind H. inversion H; subst.
    rewrite in_app_iff, (IH _ E0 y). split.
    + intros [Hy | (x' & ys & Hx & Hf & Hy)].
      * exists x, v. simpl; auto.
      * exists x', ys. simpl; auto.
    + intros (x' & ys & [<- | Hx] & Hf & Hy).
      * left. rewrite E in Hf. now inversion Hf; subst.
      * right. eauto.
Qed.

Lemma concatM_total {A B : Type} (f : A -> res (list B)) (l : list A) :
  Forall (fun x => exists ys, f x = Ok ys) l -> exists r, concatM f l = Ok r.
Proof.
  induction 1 as [|x l (ys & Hx) _ (r & IH)]; simpl; [eauto|].
  rewrite Hx, IH; simpl; eauto.
Qed.

(** ** Polygon height *)

Lemma nth_error_y_coordinates :
  forall (l : list Q) (k : nat),
    nth_error (y_coordinates l) k = nth_error l (1 + k * 2).
Proof.
  fix IH 1. intros [|x [|y r]] k.
  - clear IH. destruct k; reflexivity.
  - clear IH. destruct k; reflexivity.
  - destruct k as [|k]; simpl; [reflexivity|]. apply (IH r k).
Qed.

Lemma length_y_coordinates :
  forall l : list Q, List.length (y_coordinates l) = (List.length l / 2)%nat.
Proof.
  fix IH 1. intros [|x [|y r]]; [reflexivity | reflexivity |].
  cbn [y_coordinates List.length]. rewrite (IH r). clear IH.
  change (S (S (List.length r))) with (1 * 2 + List.length r)%nat.
  rewrite Nat.add_comm, Nat.div_add by discriminate. lia.
Qed.

Lemma range_odd (n : nat) :
  Py.range 1 n 2 = map (fun k => 1 + k * 2)%nat (seq 0 (n / 2)).
Proof.
  unfold Py.range. f_equal. f_equal.
  destruct n as [|n]; simpl; [reflexivity|].
  now rewrite Nat.sub_0_r, Nat.add_1_r.
Qed.

Lemma y_coords_numbers (l : list Q) :
  mapM (Py.index (numbers l)) (Py.range 1 (List.length l) 2)
  = Ok (map JNum (y_coordinates l)).
Proof.
  rewrite range_odd, mapM_compose, <- length_y_coordinates.
  rewrite <- (length_map JNum (y_coordinates l)).
  apply mapM_seq_nth_error. intros k v Hk.
  rewrite nth_error_map, nth_error_y_coordinates in Hk.
  unfold numbers, Py.index, Py.list_index. rewrite nth_error_map.
  rewrite Nat.add_0_l.
  destruct (nth_error l (1 + k * 2)); simpl in Hk; [|discriminate].
  now inversion Hk.
Qed.

Lemma mapM_as_num (l : list Q) : mapM Py.as_num (map JNum l) = Ok l.
Proof.
  rewrite mapM_compose. rewrite (mapM_ext_in _ (fun x => x)).
  - now rewrite map_id.
  - reflexivity.
Qed.

Lemma Qlt_bool_iff (x y : Q) : Py.Qlt_bool x y = true <-> (x < y)%Q.
Proof.
  unfold Py.Qlt_bool. rewrite negb_true_iff, <- not_true_iff_false, Qle_bool_iff.
  split; [apply Qnot_le_lt | apply Qlt_not_le].
Qed.

Lemma fold_max_greatest (r : list Q) (x : Q) :
  greatest (fold_left (fun m item => if Py.Qlt_bool m item then item else m) r x)
           (x :: r).
Proof.
  revert x; induction r as [|y r IH]; intros x; simpl.
  - split; [now left | constructor; [apply Qle_refl | constructor]].
  - destruct (IH (if Py.Qlt_bool x y then y else x)) as [Hin Hall].
    inversion Hall as [|? ? Hhd Htl]; subst.
    destruct (Py.Qlt_bool x y) eqn:E.
    + apply Qlt_bool_iff in E. split.
      * destruct Hin as [<- | Hin]; simpl; auto.
      * constructor; [|constructor; assumption].
        eapply Qle_trans; [apply Qlt_le_weak, E | exact Hhd].
    + assert (y <= x)%Q as Hyx.
      { apply Qnot_lt_le. intros C. apply Qlt_bool_iff in C. congruence. }
      split.
      * destruct Hin as [<- | Hin]; simpl; auto.
      * constructor; [exact Hhd|]. constructor; [|assumption].
        eapply Qle_trans; [exact Hyx | exact Hhd].
Qed.

Lemma fold_min_least (r : list Q) (x : Q) :
  least (fold_left (fun m item => if Py.Qlt_bool item m then item else m) r x)
        (x :: r).
Proof.
  revert x; induction r as [|y r IH]; intros x; simpl.
  - split; [now left | constructor; [apply Qle_refl | constructor]].
  - destruct (IH (if Py.Qlt_bool y x then y else x)) as [Hin Hall].
    inversion Hall as [|? ? Hhd Htl]; subst.
    destruct (Py.Qlt_bool y x) eqn:E.
    + apply Qlt_bool_iff in E. split.
      * destruct Hin as [<- | Hin]; simpl; auto.
      * constructor; [|constructor; assumption].
        eapply Qle_trans; [exact Hhd | apply Qlt_le_weak, E].
    + assert (x <= y)%Q as Hxy.
      { apply Qnot_lt_le. intros C. apply Qlt_bool_iff in C. congruence. }
      split.
      * destruct Hin as [<- | Hin]; simpl; auto.
      * constructor; [exact Hhd|]. constructor; [|assumption].
        eapply Qle_trans; [exact Hhd | exact Hxy].
Qed.

(** An absent polygon ([None]) has height 0. *)
Lemma get_polygon_height_absent : get_polygon_height JNull = Ok 0%Q.
Proof. reflexivity. Qed.

Lemma get_polygon_height_short (l : list Q) :
  (List.length l < 8)%nat -> get_polygon_height (numbers l) = Ok 0%Q.
Proof.
  intros H. unfold get_polygon_height, numbers.
  destruct l as [|x l]; [reflexivity|].
  apply Nat.ltb_lt in H. rewrite <- (length_map JNum) in H.
  cbn [map Py.truthy negb Py.len bind] in *. now rewrite H.
Qed.

Lemma get_polygon_height_long (l : list Q) :
  (8 <= List.length l)%nat ->
  exists hi lo,
    get_polygon_height (numbers l) = Ok (hi - lo)%Q /\
    greatest hi (y_coordinates l) /\ least lo (y_coordinates l).
Proof.
  intros H. unfold get_polygon_height.
  assert (Py.truthy (numbers l) = true) as ->
    by (destruct l; [simpl in H; lia | reflexivity]).
  assert (Py.len (numbers l) = Ok (List.length l)) as ->
    by (unfold numbers; simpl; now rewrite length_map).
  cbn [negb bind].
  assert ((List.length l <? 8)%nat = false) as -> by (apply Nat.ltb_ge; exact H).
  rewrite y_coords_numbers. cbn [bind]. rewrite mapM_as_num. cbn [bind].
  destruct (y_coordinates l) as [|y ys] eqn:Ey.
  - exfalso. apply (f_equal (@List.length Q)) in Ey.
    rewrite length_y_coordinates in Ey.
    pose proof (Nat.Div0.div_le_mono 8 (List.length l) 2 H) as H4.
    rewrite Ey in H4. revert H4. clear. cbn. lia.
  - simpl. eexists _, _. split; [reflexivity|].
    split; [apply fold_max_greatest | apply fold_min_least].
Qed.

(** C7. [get_polygon_height] returns 0 for an absent polygon and for one
    with fewer than 4 (x, y) pairs (fewer than 8 numbers); for any other
    polygon it returns the greatest minus the least of the coordinates at
    the odd indices. *)
Theorem get_polygon_height_spec (l : list Q) :
  get_polygon_height JNull = Ok 0%Q /\
  ((List.length l < 8)%nat -> get_polygon_height (numbers l) = Ok 0%Q) /\
  ((8 <= List.length l)%nat ->
   exists hi lo,
     get_polygon_height (numbers l) = Ok (hi - lo)%Q /\
     greatest hi (y_coordinates l) /\ least lo (y_coordinates l)).
Proof.
  split; [exact get_polygon_height_absent|].
  split; [apply get_polygon_height_short | apply get_polygon_height_long].
Qed.

Lemma get_polygon_height_spec_witness :
  get_polygon_height (numbers [1; 2; 3; 4]%Q) = Ok 0%Q /\
  exists hi lo,
    get_polygon_height (numbers small) = Ok (hi - lo)%Q /\
    greatest hi (y_coordinates small) /\ least lo (y_coordinates small).
Proof.
  split.
  - apply (proj1 (proj2 (get_polygon_height_spec [1; 2; 3; 4]%Q))). simpl. lia.
  - apply (proj2 (proj2 (get_polygon_height_spec small))). simpl. lia.
Defined.

Example get_polygon_height_tall : get_polygon_height (numbers tall) = Ok 30%Q.
Proof. reflexivity. Qed.

(** ** Page extraction *)

(** On a JSON object the function returns, whatever the object holds. *)
Lemma get_pages_from_json_object (kvs : list (string * json)) :
  get_pages_from_json (JObj kvs) = Ok (pages_of kvs).
Proof.
  unfold get_pages_from_json, pages_of, analyze_result_of, read_results_of.
  cbn [Py.contains Py.getitem Py.get and_then bind].
  destruct (Py.lookup_key "pages" kvs) as [v|]; cbn [bind].
  - destruct (Py.truthy v); cbn [bind]; [reflexivity|].
    destruct (Py.lookup_key "analyzeResult" kvs) as [[| | | | |a]|];
      cbn [bind Py.is_dict Py.contains Py.getitem];
      try (destruct (Py.lookup_key "readResults" kvs) as [w|]; cbn [bind];
           [destruct (Py.truthy w)|]; reflexivity).
    destruct (Py.lookup_key "pages" a); cbn [bind]; [reflexivity|].
    destruct (Py.lookup_key "readResults" kvs) as [w|]; cbn [bind];
      [destruct (Py.truthy w)|]; reflexivity.
  - destruct (Py.lookup_key "analyzeResult" kvs) as [[| | | | |a]|];
      cbn [bind Py.is_dict Py.contains Py.getitem];
      try (destruct (Py.lookup_key "readResults" kvs) as [w|]; cbn [bind];
           [destruct (Py.truthy w)|]; reflexivity).
    destruct (Py.lookup_key "pages" a); cbn [bind]; [reflexivity|].
    destruct (Py.lookup_key "readResults" kvs) as [w|]; cbn [bind];
      [destruct (Py.truthy w)|]; reflexivity.
Qed.

(** A parsed document that is not an object can make the function
    raise. *)
Example get_pages_from_json_number : get_pages_from_json (JNum 1) = Raise TypeError.
Proof. reflexivity. Qed.

(** C5. An empty [analyzeResult.pages] is returned although [readResults]
    holds pages: the second branch, unlike the first and the third, does
    not test that its match is non-empty. *)
Theorem get_pages_from_json_empty_analyzeResult (pages : list json) :
  get_pages_from_json
    (JObj [("analyzeResult", JObj [("pages", JArr [])]);
           ("readResults", JArr pages)])
  = Ok (JArr []).
Proof. reflexivity. Qed.

(** C6. A document that stores the page sequence [P] under [pages] and one
    that stores it under [analyzeResult.pages] give the same pages
    ([d] holds the other top-level fields, [a] the other fields of
    [analyzeResult]). *)
Theorem get_pages_from_json_same_pages (P : list json)
    (d a : list (string * json)) :
  Py.lookup_key "pages" d = None ->
  Py.lookup_key "analyzeResult" d = None ->
  Py.lookup_key "readResults" d = None ->
  get_pages_from_json (JObj (("pages", JArr P) :: d))
  = get_pages_from_json (JObj (("analyzeResult", JObj (("pages", JArr P) :: a)) :: d))
  /\ get_pages_from_json (JObj (("pages", JArr P) :: d)) = Ok (JArr P).
Proof.
  intros Hp Ha Hr. rewrite !get_pages_from_json_object.
  unfold pages_of, analyze_result_of, read_results_of.
  cbn [Py.lookup_key String.eqb Ascii.eqb Bool.eqb].
  rewrite Hp, Ha, Hr. destruct P; split; reflexivity.
Qed.

Lemma get_pages_from_json_same_pages_witness :
  get_pages_from_json
    (JObj [("pages", JArr [JObj [("pageNumber", JNum 1)]]);
           ("status", JStr "succeeded")])
  = get_pages_from_json
      (JObj [("analyzeResult",
              JObj [("pages", JArr [JObj [("pageNumber", JNum 1)]]);
                    ("version", JStr "3.2")]);
             ("status", JStr "succeeded")])
  /\ get_pages_from_json
       (JObj [("pages", JArr [JObj [("pageNumber", JNum 1)]]);
              ("status", JStr "succeeded")])
     = Ok (JArr [JObj [("pageNumber", JNum 1)]]).
Proof.
  apply (get_pages_from_json_same_pages
           [JObj [("pageNumber", JNum 1)]]
           [("status", JStr "succeeded")] [("version", JStr "3.2")]);
    reflexivity.
Defined.

(** ** Words and lines *)

Lemma getitem_get (c : json) (k : string) (d v : json) :
  Py.getitem c k = Ok v -> Py.get c k d = Ok v.
Proof.
  destruct c; simpl; try discriminate.
  now destruct (Py.lookup_key k kvs).
Qed.

Lemma word_start_offset (word : json) (w : Q) :
  word_offset_is word w -> word_start word = Ok (JNum w).
Proof.
  intros (sp & Hs & Ho). unfold word_start.
  rewrite (getitem_get _ _ _ _ Hs). simpl. now apply getitem_get.
Qed.

Lemma span_bounds_is (line_span : json) (o n : Q) :
  span_is line_span o n -> span_bounds line_span = Ok (JNum o, (o + n)%Q).
Proof. intros [Ho Hn]. unfold span_bounds. now rewrite Ho, Hn. Qed.

Lemma word_in_span_true (word : json) (w o e : Q) :
  word_start word = Ok (JNum w) ->
  exists b, word_in_span word (JNum o) e = Ok b /\
            (b = true <-> (o <= w < e)%Q).
Proof.
  intros Hw. unfold word_in_span. rewrite Hw. simpl.
  destruct (Qle_bool o w) eqn:E1; simpl.
  - exists (Py.Qlt_bool w e). split; [reflexivity|].
    rewrite Qlt_bool_iff. apply Qle_bool_iff in E1. tauto.
  - exists false. split; [reflexivity|]. split; [discriminate|].
    intros [H _]. apply Qle_bool_iff in H. congruence.
Qed.

Lemma words_of_span_typed (page_data line_span : json) (words : list json)
    (o n : Q) :
  Py.get page_data "words" (JArr []) = Ok (JArr words) ->
  Forall (fun word => exists w, word_start word = Ok (JNum w)) words ->
  span_is line_span o n ->
  exists r,
    words_of_span (fun word => Ok [word]) page_data line_span = Ok r /\
    forall word, In word r <->
      In word words /\
      exists w, word_start word = Ok (JNum w) /\ (o <= w < o + n)%Q.
Proof.
  intros Hws Hall Hs. unfold words_of_span.
  rewrite (span_bounds_is _ _ _ Hs), Hws. cbn [bind Py.iter fst snd].
  set (f := fun word : json => _).
  assert (Forall (fun x => exists ys, f x = Ok ys) words) as Htot.
  { eapply List.Forall_impl; [|exact Hall]. intros word (w & Hw). unfold f.
    destruct (word_in_span_true word w o (o + n) Hw) as (b & -> & _).
    simpl. destruct b; eauto. }
  destruct (concatM_total f words Htot) as (r & Hr).
  exists r. split; [exact Hr|]. intros word.
  rewrite (concatM_In f words r Hr word). split.
  - intros (x & ys & Hx & Hf & Hy).
    rewrite List.Forall_forall in Hall. destruct (Hall x Hx) as (w & Hw).
    unfold f in Hf.
    destruct (word_in_span_true x w o (o + n) Hw) as (b & Hb & Hiff).
    rewrite Hb in Hf. simpl in Hf. destruct b.
    + inversion Hf; subst. destruct Hy as [<- | []].
      split; [exact Hx|]. exists w. split; [exact Hw | now apply Hiff].
    + inversion Hf; subst. destruct Hy.
  - intros (Hx & w & Hw & Hin).
    exists word, [word]. split; [exact Hx|]. split; [|now left].
    unfold f.
    destruct (word_in_span_true word w o (o + n) Hw) as (b & Hb & Hiff).
    rewrite Hb. simpl. apply Hiff in Hin. now subst b.
Qed.

(** C3. On a page whose words have a numeric span offset (or none, which
    the code reads as -1) and for a line whose spans have a numeric offset
    and length, the words that the loops hand on for the line are the words
    of the page whose span start offset lies in [[o, o + n)] for a span
    [(o, n)] of the line. *)
Theorem associated_words_iff (page_data line : json)
    (spans words : list json) :
  Py.get line "spans" (JArr []) = Ok (JArr spans) ->
  Py.get page_data "words" (JArr []) = Ok (JArr words) ->
  Forall (fun s => exists o n, span_is s o n) spans ->
  Forall (fun word => exists w, word_start word = Ok (JNum w)) words ->
  exists ws,
    associated_words page_data line = Ok ws /\
    forall word w,
      In word words -> word_offset_is word w ->
      (In word ws <->
       exists s o n, In s spans /\ span_is s o n /\ (o <= w < o + n)%Q).
Proof.
  intros Hss Hws Hspans Hwords.
  unfold associated_words, words_of_line. rewrite Hss. cbn [bind Py.iter].
  set (f := words_of_span _ page_data).
  assert (Forall (fun x => exists ys, f x = Ok ys) spans) as Htot.
  { eapply List.Forall_impl; [|exact Hspans]. intros s (o & n & Hs).
    destruct (words_of_span_typed page_data s words o n Hws Hwords Hs)
      as (r & Hr & _). eauto. }
  destruct (concatM_total f spans Htot) as (ws & Hr).
  exists ws. split; [exact Hr|]. intros word w Hin Hw.
  apply word_start_offset in Hw.
  rewrite (concatM_In f spans ws Hr word). split.
  - intros (s & ys & Hs & Hf & Hy).
    rewrite List.Forall_forall in Hspans. destruct (Hspans s Hs) as (o & n & Hsp).
    destruct (words_of_span_typed page_data s words o n Hws Hwords Hsp)
      as (r & Hr' & Hiff).
    unfold f in Hf. rewrite Hr' in Hf. inversion Hf; subst.
    apply Hiff in Hy. destruct Hy as (_ & w' & Hw' & Hrange).
    rewrite Hw in Hw'. inversion Hw'; subst. exists s, o, n. auto.
  - intros (s & o & n & Hs & Hsp & Hrange).
    destruct (words_of_span_typed page_data s words o n Hws Hwords Hsp)
      as (r & Hr' & Hiff).
    exists s, r. split; [exact Hs|]. split; [exact Hr'|].
    apply Hiff. split; [exact Hin|]. exists w. auto.
Qed.

Lemma concatM_app {A B : Type} (f : A -> res (list B)) (a b : list A) :
  concatM f (a ++ b)
  = let* x := concatM f a in let* y := concatM f b in Ok (x ++ y).
Proof.
  induction a as [|z a IH]; simpl.
  - now destruct (concatM f b).
  - destruct (f z) as [y|]; simpl; [|reflexivity]. rewrite IH.
    destruct (concatM f a) as [x|]; simpl; [|reflexivity].
    destruct (concatM f b) as [w|]; simpl; [|reflexivity].
    now rewrite app_assoc.
Qed.

Lemma words_of_span_body {B : Type} (body : json -> res (list B))
    (page_data line_span : json) (r : list B) :
  words_of_span body page_data line_span = Ok r ->
  exists ws,
    words_of_span (fun word => Ok [word]) page_data line_span = Ok ws /\
    concatM body ws = Ok r.
Proof.
  unfold words_of_span. intros H.
  inv_bind H as bounds Hb. inv_bind H as ws Hws. inv_bind H as words Hwords.
  rewrite Hb; cbn [bind]. rewrite Hws; cbn [bind]. rewrite Hwords; cbn [bind].
  clear Hwords Hws.
  revert r H; induction words as [|word words IH]; intros r H.
  - injection H as <-. now exists [].
  - cbn [concatM] in H |- *. inv_bind H as y Hy. inv_bind H as ys Hys.
    injection H as <-. inv_bind Hy as hit Hhit. rewrite Hhit. cbn [bind].
    destruct (IH _ Hys) as (ws' & -> & Hbody). cbn [bind].
    destruct hit.
    + exists (word :: ws'). split; [reflexivity|].
      cbn [concatM]. now rewrite Hy, Hbody.
    + injection Hy as <-. exists ws'. split; [reflexivity | exact Hbody].
Qed.

(** The text layer of a main-text line: [insert_word] on the words
    associated with the line, in order. *)
Lemma line_words_associated (i : nat) (scale_factor : Q)
    (page_data line : json) (inss : list insertion) :
  line_words i scale_factor page_data line = Ok inss ->
  exists ws,
    associated_words page_data line = Ok ws /\
    concatM (insert_word i scale_factor) ws = Ok inss.
Proof.
  unfold line_words, associated_words, words_of_line. intros H.
  inv_bind H as ss Hss. inv_bind H as spans Hspans.
  rewrite Hss; cbn [bind]. rewrite Hspans; cbn [bind]. clear Hss Hspans.
  revert inss H; induction spans as [|s spans IH]; intros inss H.
  - injection H as <-. now exists [].
  - cbn [concatM] in H |- *. inv_bind H as y Hy. inv_bind H as ys Hys.
    injection H as <-.
    destruct (words_of_span_body _ _ _ _ Hy) as (w1 & -> & H1).
    destruct (IH _ Hys) as (w2 & -> & H2). cbn [bind].
    exists (w1 ++ w2). split; [reflexivity|].
    now rewrite concatM_app, H1, H2.
Qed.

(** The example of the specification: the word at offset 15 belongs to
    the line that covers [[10, 20)] only, the word at offset 20 to the line
    that covers [[20, 25)] only. *)
Example associated_words_boundary :
  associated_words boundary_page line_10_20 = Ok [word_15] /\
  associated_words boundary_page line_20_25 = Ok [word_20].
Proof. split; reflexivity. Qed.

Lemma associated_words_iff_witness :
  exists ws,
    associated_words boundary_page line_10_20 = Ok ws /\
    forall word w,
      In word [word_15; word_20] -> word_offset_is word w ->
      (In word ws <->
       exists s o n,
         In s [span_json 10 10] /\ span_is s o n /\ (o <= w < o + n)%Q).
Proof.
  apply (associated_words_iff boundary_page line_10_20
           [span_json 10 10] [word_15; word_20]).
  - reflexivity.
  - reflexivity.
  - repeat constructor. exists 10%Q, 10%Q. split; reflexivity.
  - repeat constructor; eexists; reflexivity.
Defined.

(** ** RAG content of a page *)

Lemma join_Ok (sep : string) (l : list json) (t : string) :
  Py.join sep l = Ok t ->
  exists ss, l = map JStr ss /\ t = String.concat sep ss.
Proof.
  revert t; induction l as [|x l IH]; intros t H.
  - inversion H; subst. now exists [].
  - destruct x as [|b|q|s|l'|kvs]; try discriminate H.
    destruct l as [|y l].
    + simpl in H. injection H as <-. now exists [s].
    + change (Py.join sep (JStr s :: y :: l))
        with (let* t := Py.join sep (y :: l) in Ok (s ++ sep ++ t)%string) in H.
      inv_bind H. injection H as <-.
      destruct (IH _ E) as (ss & Hss & Hv).
      exists (s :: ss). split; [now rewrite Hss|].
      destruct ss as [|s' ss]; [discriminate Hss|].
      now rewrite Hv.
Qed.

Lemma collected_texts (mtl : list json) (texts : list json) (ss : list string) :
  concatM (fun line =>
             let* c := get_item_text line in
             if Py.truthy c then let* t := get_item_text line in Ok [t]
             else Ok [])
          mtl = Ok texts ->
  texts = map JStr ss ->
  ss = nonempty_texts mtl.
Proof.
  revert texts ss; induction mtl as [|line mtl IH]; intros texts ss H Hss.
  - injection H as <-. now destruct ss.
  - cbn [concatM] in H. inv_bind H as y Hy. inv_bind H as ys Hys.
    injection H as <-. inv_bind Hy as c Hc.
    cbn [nonempty_texts]. rewrite Hc.
    destruct (Py.truthy c) eqn:Ht.
    + rewrite Hc in Hy. cbn [bind] in Hy. injection Hy as <-.
      destruct ss as [|s ss]; [discriminate Hss|].
      simpl in Hss. injection Hss as -> Hss. simpl in Ht.
      apply negb_true_iff in Ht. rewrite Ht. f_equal. exact (IH ys ss Hys Hss).
    + injection Hy as <-. simpl in Hss.
      destruct c as [|b|q|s|l'|kvs]; try exact (IH ys ss Hys Hss).
      simpl in Ht. apply negb_false_iff in Ht. rewrite Ht.
      exact (IH ys ss Hys Hss).
Qed.

Lemma nonempty_texts_nonempty (lines : list json) :
  Forall (fun s => s <> "") (nonempty_texts lines).
Proof.
  induction lines as [|line r IH]; simpl; [constructor|].
  destruct (get_item_text line) as [[|b|q|s|l'|kvs]|]; try exact IH.
  destruct (String.eqb s "") eqn:E; [exact IH|].
  constructor; [|exact IH]. now apply String.eqb_neq.
Qed.

Lemma concat_empty (sep : string) (ss : list string) :
  Forall (fun s => s <> "") ss -> String.concat sep ss = "" -> ss = [].
Proof.
  intros H. destruct H as [|s ss Hs _]; [reflexivity|].
  intros C. exfalso. destruct ss; simpl in C; [contradiction|].
  destruct s; [contradiction | discriminate].
Qed.

(** C2. On a page that the loop processes, the main-text lines are the
    lines of the page whose height is at least the cutoff; the page text
    is the newline-joined text of the main-text lines with a non-empty
    text; a chunk with that content is appended when there is such a
    line, and nothing is appended when the text is empty. *)
Theorem page_rag_content (i : nat) (scale_factor height_cutoff : Q)
    (page_data page_num : json) (lines : list json)
    (chunks : list chunk) (ins : list insertion) :
  Py.get page_data "lines" (JArr []) = Ok (JArr lines) ->
  process_page i scale_factor height_cutoff page_data page_num = Ok (chunks, ins) ->
  exists mtl,
    main_text_lines page_data height_cutoff = Ok mtl /\
    Forall (fun l => exists h, line_height l = Ok h) lines /\
    mtl = List.filter (tall_enough height_cutoff) lines /\
    page_text_for_rag mtl = Ok (String.concat newline (nonempty_texts mtl)) /\
    (String.concat newline (nonempty_texts mtl) = "" <-> nonempty_texts mtl = []) /\
    (nonempty_texts mtl = [] -> chunks = []) /\
    (nonempty_texts mtl <> [] ->
     chunks = [ {| page_number := page_num;
                   content := String.concat newline (nonempty_texts mtl) |} ]).
Proof.
  intros Hlines H. unfold process_page in H.
  inv_bind H as mtl Hmain. inv_bind H as text Htext. inv_bind H as ins' Hins.
  injection H as <- <-.
  exists mtl. split; [exact Hmain|].
  unfold main_text_lines in Hmain. rewrite Hlines in Hmain.
  cbn [bind Py.iter] in Hmain.
  apply filterM_Ok in Hmain. destruct Hmain as [Hall Hmtl].
  assert (Forall (fun l => exists h, line_height l = Ok h) lines) as Hh.
  { eapply List.Forall_impl; [|exact Hall]. intros l (b & Hb).
    inv_bind Hb as h Hl. eauto. }
  split; [exact Hh|].
  assert (mtl = List.filter (tall_enough height_cutoff) lines) as Hfilter.
  { rewrite Hmtl. apply List.filter_ext. intros l. unfold tall_enough.
    now destruct (line_height l). }
  split; [exact Hfilter|].
  pose proof Htext as Hjoin. unfold page_text_for_rag in Hjoin.
  inv_bind Hjoin as texts Htexts.
  destruct (join_Ok _ _ _ Hjoin) as (ss & Hss & Ht).
  pose proof (collected_texts _ _ _ Htexts Hss) as ->.
  split; [now rewrite Htext, Ht|].
  assert (String.concat newline (nonempty_texts mtl) = "" <-> nonempty_texts mtl = [])
    as Hiff.
  { split; [apply concat_empty, nonempty_texts_nonempty | now intros ->]. }
  split; [exact Hiff|]. subst text. unfold page_chunk. simpl.
  split.
  - intros Hnil. now rewrite Hnil.
  - intros Hne. destruct (String.eqb (String.concat newline (nonempty_texts mtl)) "") eqn:Eq.
    + apply String.eqb_eq in Eq. apply Hiff in Eq. contradiction.
    + reflexivity.
Qed.

Lemma page_rag_content_witness :
  exists mtl,
    main_text_lines furigana_page 21 = Ok mtl /\
    Forall (fun l => exists h, line_height l = Ok h)
           [line_json small "ka" [span_json 0 2];
            line_json tall "kanji" [span_json 3 5];
            line_json tall "" [span_json 9 0];
            line_json tall "text" [span_json 10 4]] /\
    mtl = List.filter (tall_enough 21)
            [line_json small "ka" [span_json 0 2];
             line_json tall "kanji" [span_json 3 5];
             line_json tall "" [span_json 9 0];
             line_json tall "text" [span_json 10 4]] /\
    page_text_for_rag mtl = Ok (String.concat newline (nonempty_texts mtl)) /\
    (String.concat newline (nonempty_texts mtl) = "" <-> nonempty_texts mtl = []) /\
    (nonempty_texts mtl = [] -> [ {| page_number := JNum 1;
                                     content := String.concat newline ["kanji"; "text"] |} ] = []) /\
    (nonempty_texts mtl <> [] ->
     [ {| page_number := JNum 1;
          content := String.concat newline ["kanji"; "text"] |} ]
     = [ {| page_number := JNum 1;
            content := String.concat newline (nonempty_texts mtl) |} ]).
Proof.
  apply (page_rag_content 0 1 21 furigana_page (JNum 1) _ _
           [ {| ins_page := 0; ins_x := 0; ins_y := 30; ins_text := JStr "kanji" |} ]).
  - reflexivity.
  - reflexivity.
Defined.

(** The furigana line (height 15, below the cutoff 21) gives neither text
    nor words; the main-text line without text gives no text. *)
Example furigana_page_processed :
  process_page 0 1 21 furigana_page (JNum 1)
  = Ok ([ {| page_number := JNum 1;
             content := String.concat newline ["kanji"; "text"] |} ],
        [ {| ins_page := 0; ins_x := 0; ins_y := 30; ins_text := JStr "kanji" |} ]).
Proof. reflexivity. Qed.

(** A page whose every line is below the cutoff appends no chunk. *)
Example no_empty_chunk :
  process_page 0 1 21
    (page_json 1 "pixel" [line_json small "ka" [span_json 0 2]]
               [word_json small "ka" 0])
    (JNum 1)
  = Ok ([], []).
Proof. reflexivity. Qed.

(** ** The text layer *)

Lemma scaled_point (sf : Q) (pts : list json) (scaled : list Q) (k : nat) (x : Q) :
  mapM (fun p => Py.mul p sf) pts = Ok scaled ->
  Py.list_index scaled k = Ok x ->
  exists p q, nth_error pts k = Some p /\ Py.as_num p = Ok q /\ x = (q * sf)%Q.
Proof.
  intros Hm Hx. unfold Py.list_index in Hx.
  destruct (nth_error scaled k) as [x'|] eqn:Hk; [|discriminate].
  injection Hx as ->.
  destruct (mapM_nth_error _ _ _ _ _ Hm Hk) as (p & Hp & Hmul).
  unfold Py.mul in Hmul. inv_bind Hmul as q Hq. injection Hmul as <-.
  eauto.
Qed.

Lemma insert_word_placed (i : nat) (sf : Q) (word : json)
    (r : list insertion) (ins : insertion) :
  insert_word i sf word = Ok r -> In ins r ->
  ins_page ins = i /\ placed_at sf word ins.
Proof.
  intros H Hin. unfold insert_word in H.
  inv_bind H as word_poly Hpoly. inv_bind H as word_text Htext.
  destruct (negb (Py.truthy word_poly) || negb (Py.truthy word_text)).
  { injection H as <-. destruct Hin. }
  inv_bind H as pts Hpts. inv_bind H as scaled Hscaled.
  inv_bind H as x Hx. inv_bind H as y Hy. injection H as <-.
  destruct Hin as [<- | []]. split; [reflexivity|].
  destruct (scaled_point _ _ _ _ _ Hscaled Hx) as (p6 & q6 & Hp6 & Hq6 & ->).
  destruct (scaled_point _ _ _ _ _ Hscaled Hy) as (p7 & q7 & Hp7 & Hq7 & ->).
  destruct word_poly as [|b|q|s|poly|kvs]; try discriminate Hpts;
    simpl in Hpts; injection Hpts as <-.
  - unfold Py.chars in Hp6. rewrite nth_error_map in Hp6.
    destruct (nth_error (list_ascii_of_string s) 6); [|discriminate].
    injection Hp6 as <-. discriminate Hq6.
  - exists poly, p6, p7, q6, q7. simpl. auto 10.
  - rewrite nth_error_map in Hp6.
    destruct (nth_error kvs 6); [|discriminate].
    injection Hp6 as <-. discriminate Hq6.
Qed.

Lemma words_of_span_In {B : Type} (body : json -> res (list B))
    (page_data line_span : json) (r : list B) (y : B) :
  words_of_span body page_data line_span = Ok r -> In y r ->
  exists word ys, word_of_page page_data word /\ body word = Ok ys /\ In y ys.
Proof.
  intros H Hin. unfold words_of_span in H.
  inv_bind H as bounds Hb. inv_bind H as ws Hws. inv_bind H as words Hwords.
  apply (concatM_In _ _ _ H) in Hin. destruct Hin as (word & ys & Hw & Hf & Hy).
  inv_bind Hf as hit Hhit. destruct hit.
  - exists word, ys. split; [|auto]. exists ws, words. auto.
  - injection Hf as <-. destruct Hy.
Qed.

Lemma words_of_line_In {B : Type} (body : json -> res (list B))
    (page_data line : json) (r : list B) (y : B) :
  words_of_line body page_data line = Ok r -> In y r ->
  exists word ys, word_of_page page_data word /\ body word = Ok ys /\ In y ys.
Proof.
  intros H Hin. unfold words_of_line in H.
  inv_bind H as ss Hss. inv_bind H as spans Hspans.
  apply (concatM_In _ _ _ H) in Hin. destruct Hin as (s & ys & _ & Hf & Hy).
  exact (words_of_span_In body page_data s ys y Hf Hy).
Qed.

Lemma process_page_placed (i : nat) (sf height_cutoff : Q)
    (page_data page_num : json) (chunks : list chunk) (inss : list insertion)
    (ins : insertion) :
  process_page i sf height_cutoff page_data page_num = Ok (chunks, inss) ->
  In ins inss ->
  ins_page ins = i /\
  exists word, word_of_page page_data word /\ placed_at sf word ins.
Proof.
  intros H Hin. unfold process_page in H.
  inv_bind H as mtl Hmain. inv_bind H as text Htext. inv_bind H as r Hr.
  injection H as _ <-.
  apply (concatM_In _ _ _ Hr) in Hin. destruct Hin as (line & ys & _ & Hf & Hy).
  destruct (words_of_line_In _ _ _ _ _ Hf Hy) as (word & zs & Hw & Hb & Hz).
  destruct (insert_word_placed _ _ _ _ _ Hb Hz) as [Hpage Hplaced].
  split; [exact Hpage|]. eauto.
Qed.

Lemma pages_loop_placed (n : nat) (sf height_cutoff : Q) (pages : list json) :
  forall (i : nat) (chunks : list chunk) (inss : list insertion) (ins : insertion),
    pages_loop n sf height_cutoff i pages = Ok (chunks, inss) ->
    In ins inss ->
    exists k page_data word,
      nth_error pages k = Some page_data /\ ins_page ins = (i + k)%nat /\
      word_of_page page_data word /\ placed_at sf word ins.
Proof.
  induction pages as [|page_data rest IH]; intros i chunks inss ins H Hin.
  - injection H as _ <-. destruct Hin.
  - cbn [pages_loop] in H. inv_bind H as page_num Hnum.
    destruct (n <=? i)%nat.
    { injection H as _ <-. destruct Hin. }
    inv_bind H as here Hhere. inv_bind H as later Hlater.
    injection H as _ <-. destruct here as [cs1 ins1], later as [cs2 ins2].
    cbn [snd] in Hin. apply in_app_iff in Hin. destruct Hin as [Hin | Hin].
    + destruct (process_page_placed _ _ _ _ _ _ _ _ Hhere Hin)
        as (Hpage & word & Hw & Hp).
      exists 0%nat, page_data, word. rewrite Nat.add_0_r. auto.
    + destruct (IH _ _ _ _ Hlater Hin) as (k & pd & word & Hk & Hpage & Hw & Hp).
      exists (S k), pd, word. split; [exact Hk|].
      split; [lia | auto].
Qed.

(** C4 (amended). Every word of the text layer is placed at the items 6
    and 7 of its polygon, each multiplied by 72 when the unit of the first
    page of the document is ["inch"] and by 1 otherwise (also for a word of
    a later page). *)
Theorem insertion_point_scaled (n_pdf_pages : nat) (data : json)
    (height_cutoff : Q) (text_layer : list insertion) (chunks : list chunk) :
  process_full_workflow n_pdf_pages data height_cutoff
  = Ok (Rebuilt text_layer chunks) ->
  exists pages_data pages first u,
    get_pages_from_json data = Ok pages_data /\
    Py.iter pages_data = Ok pages /\
    Py.index pages_data 0 = Ok first /\
    Py.get first "unit" JNull = Ok u /\
    forall ins, In ins text_layer ->
      exists page_data word,
        nth_error pages (ins_page ins) = Some page_data /\
        word_of_page page_data word /\
        placed_at (if Py.is_str "inch" u then 72 else 1)%Q word ins.
Proof.
  intros H. unfold process_full_workflow in H.
  inv_bind H as pages_data Hpages.
  destruct (negb (Py.truthy pages_data)); [discriminate|].
  inv_bind H as sf Hsf. inv_bind H as pages Hiter. inv_bind H as r Hloop.
  injection H as <- <-. destruct r as [cs inss].
  unfold scale_factor_of in Hsf. inv_bind Hsf as first Hfirst.
  inv_bind Hsf as u Hu. injection Hsf as <-.
  exists pages_data, pages, first, u. repeat (split; [assumption|]).
  intros ins Hin.
  destruct (pages_loop_placed _ _ _ _ _ _ _ _ Hloop Hin)
    as (k & pd & word & Hk & Hpage & Hw & Hp).
  exists pd, word. rewrite Hpage. auto.
Qed.

(** C4, as stated, fails: the word of the second page, whose unit is
    ["inch"], is placed at the items 6 and 7 of its polygon, (1, 2),
    and not at (72, 144), because the first page is not in inches. *)
Lemma later_page_unit_counterexample :
  Py.get inch_page "unit" JNull = Ok (JStr "inch") /\
  word_of_page inch_page (word_json [1; 1; 2; 1; 2; 2; 1; 2]%Q "a" 0) /\
  process_full_workflow 2 two_unit_document 21
  = Ok (Rebuilt [ {| ins_page := 1; ins_x := 1; ins_y := 2; ins_text := JStr "a" |} ]
                [ {| page_number := JNum 2; content := "a" |} ]) /\
  ~ (1 == 1 * 72)%Q /\ ~ (2 == 2 * 72)%Q.
Proof.
  split; [reflexivity|]. split.
  - eexists _, _. split; [reflexivity|]. split; [reflexivity|]. now left.
  - split; [reflexivity|]. split; discriminate.
Qed.

Lemma insertion_point_scaled_witness :
  exists pages_data pages first u,
    get_pages_from_json inch_document = Ok pages_data /\
    Py.iter pages_data = Ok pages /\
    Py.index pages_data 0 = Ok first /\
    Py.get first "unit" JNull = Ok u /\
    forall ins,
      In ins [ {| ins_page := 0; ins_x := 72; ins_y := 72; ins_text := JStr "a" |} ] ->
      exists page_data word,
        nth_error pages (ins_page ins) = Some page_data /\
        word_of_page page_data word /\
        placed_at (if Py.is_str "inch" u then 72 else 1)%Q word ins.
Proof.
  apply (insertion_point_scaled 1 inch_document 21 _
           [ {| page_number := JNum 1; content := "a" |} ]).
  reflexivity.
Defined.

(** C9. A word of a main-text line with a text and a polygon of four
    numbers: reading item 6 of the scaled polygon raises [IndexError], and
    nothing catches it. *)
Theorem short_word_polygon_raises :
  process_full_workflow 1 short_polygon_document 21 = Raise IndexError.
Proof. reflexivity. Qed.

(** The same for any word with a text and a polygon of one to seven
    numbers. *)
Lemma insert_word_short_polygon (i : nat) (sf : Q) (word : json)
    (poly : list Q) (text : string) :
  get_item_poly word = Ok (numbers poly) ->
  get_item_text word = Ok (JStr text) ->
  text <> "" -> (0 < List.length poly < 8)%nat ->
  insert_word i sf word = Raise IndexError.
Proof.
  intros Hp Ht Hne Hlen. unfold insert_word. rewrite Hp, Ht. cbn [bind].
  assert (Py.truthy (numbers poly) = true) as ->
    by (destruct poly; [simpl in Hlen; lia | reflexivity]).
  assert (Py.truthy (JStr text) = true) as ->
    by (simpl; apply negb_true_iff; now apply String.eqb_neq).
  cbn [negb orb Py.iter numbers bind].
  rewrite mapM_compose.
  rewrite (mapM_ext_in _ (fun q => (q * sf)%Q)) by reflexivity.
  cbn [bind]. unfold Py.list_index.
  destruct (nth_error (map (fun q => (q * sf)%Q) poly) 6) as [x|] eqn:E6;
    [|reflexivity].
  cbn [bind].
  destruct (nth_error (map (fun q => (q * sf)%Q) poly) 7) as [y|] eqn:E7;
    [|reflexivity].
  exfalso. assert (nth_error (map (fun q => (q * sf)%Q) poly) 7 <> None) as C
    by congruence.
  apply nth_error_Some in C. rewrite length_map in C. lia.
Qed.

(** ** The global analysis *)

Lemma pool_pair_lines (ls : list json) (out out' : list message) (p : FilePair) :
  fst (pool_pair (ls, out) p) = fst (pool_pair (ls, out') p).
Proof.
  unfold pool_pair. destruct (json_file p) as [|data]; [reflexivity|].
  destruct (get_pages_from_json data) as [pages|]; [|reflexivity].
  destruct (Py.truthy pages); [|reflexivity].
  destruct (Py.iter pages) as [ps|]; [|reflexivity].
  now destruct (extend_lines ps ls) as [ls' [e|]].
Qed.

Lemma pool_pair_messages (ls : list json) (out : list message) (p : FilePair) :
  exists more, snd (pool_pair (ls, out) p) = out ++ more.
Proof.
  unfold pool_pair.
  destruct (json_file p) as [|data]; [now eexists|].
  destruct (get_pages_from_json data) as [pages|]; [|now eexists].
  destruct (Py.truthy pages); [|exists []; simpl; now rewrite app_nil_r].
  destruct (Py.iter pages) as [ps|]; [|now eexists].
  destruct (extend_lines ps ls) as [ls' [e|]]; [now eexists|].
  exists []; simpl; now rewrite app_nil_r.
Qed.

Lemma pool_fold_lines (l : list FilePair) :
  forall (ls : list json) (out out' : list message),
    fst (fold_left pool_pair l (ls, out)) = fst (fold_left pool_pair l (ls, out')).
Proof.
  induction l as [|p l IH]; intros ls out out'; [reflexivity|].
  cbn [fold_left]. pose proof (pool_pair_lines ls out out' p) as H.
  destruct (pool_pair (ls, out) p) as [a b], (pool_pair (ls, out') p) as [a' b'].
  simpl in H. subst a'. apply IH.
Qed.

Lemma pool_fold_messages (l : list FilePair) :
  forall (ls : list json) (out : list message),
    exists more, snd (fold_left pool_pair l (ls, out)) = out ++ more.
Proof.
  induction l as [|p l IH]; intros ls out.
  - exists []. simpl. now rewrite app_nil_r.
  - cbn [fold_left]. destruct (pool_pair_messages ls out p) as (m1 & H1).
    destruct (pool_pair (ls, out) p) as [a b]. simpl in H1. subst b.
    destruct (IH a (out ++ m1)) as (m2 & H2).
    exists (m1 ++ m2). now rewrite H2, app_assoc.
Qed.

Lemma outcome_of_lines (a b : list FilePair) :
  fst (pool_lines a) = fst (pool_lines b) ->
  fst (global_analysis a) = fst (global_analysis b).
Proof.
  unfold global_analysis.
  destruct (pool_lines a) as [la oa], (pool_lines b) as [lb ob]. simpl.
  intros <-. destruct la as [|l la]; [reflexivity|].
  destruct (mapM line_height (l :: la)) as [hs|]; [|reflexivity].
  now destruct (cutoff_of_heights hs).
Qed.

Lemma exit_iff_no_lines (file_pairs : list FilePair) (code : Z) :
  fst (global_analysis file_pairs) = SysExit code <->
  fst (pool_lines file_pairs) = [] /\ code = 1%Z.
Proof.
  unfold global_analysis. destruct (pool_lines file_pairs) as [ls out]. simpl.
  destruct ls as [|l ls].
  - simpl. split; [intros H; injection H as <-; auto | now intros [_ ->]].
  - destruct (mapM line_height (l :: ls)) as [hs|];
      [destruct (cutoff_of_heights hs)|]; simpl;
      (split; [discriminate | intros [C _]; discriminate C]).
Qed.

Lemma mapM_raises_iff {A B : Type} (f : A -> res B) (l : list A) :
  (exists e, mapM f l = Raise e) <-> Exists (fun x => exists e, f x = Raise e) l.
Proof.
  induction l as [|a l IH]; cbn [mapM].
  - split; [intros (e & H); discriminate | intros H; inversion H].
  - destruct (f a) as [b|e] eqn:Ea; cbn [bind].
    + destruct (mapM f l) as [bs|e]; cbn [bind].
      * split; [intros (e & H); discriminate|].
        intros H. inversion H as [? ? (e & He)|? ? Hl]; subst; [congruence|].
        apply IH in Hl. destruct Hl as (e & Hl). discriminate.
      * split; [|eauto]. intros _. right. apply IH. eauto.
    + split; [|eauto]. intros _. left. eauto.
Qed.

Lemma fatal_iff_no_heights (file_pairs : list FilePair) :
  fatal (fst (global_analysis file_pairs)) <->
  fst (pool_lines file_pairs) = [] \/
  Exists height_fails (fst (pool_lines file_pairs)).
Proof.
  unfold global_analysis, height_fails.
  destruct (pool_lines file_pairs) as [ls out]. cbn [fst].
  destruct ls as [|l ls]; [simpl; tauto|].
  destruct (mapM line_height (l :: ls)) as [hs|e] eqn:E.
  - destruct (cutoff_of_heights hs). cbn [fst fatal]. split; [tauto|].
    intros [H|H]; [discriminate|].
    apply mapM_raises_iff in H. destruct H as (e & H). congruence.
  - cbn [fst fatal]. split; [|auto]. intros _. right.
    apply mapM_raises_iff. eauto.
Qed.

Lemma uncaught_iff_height_fails (file_pairs : list FilePair) :
  (exists e, fst (global_analysis file_pairs) = Uncaught e) <->
  Exists height_fails (fst (pool_lines file_pairs)).
Proof.
  unfold global_analysis, height_fails.
  destruct (pool_lines file_pairs) as [ls out]. cbn [fst].
  destruct ls as [|l ls].
  - split; [intros (e & H); discriminate | intros H; inversion H].
  - rewrite <- mapM_raises_iff.
    destruct (mapM line_height (l :: ls)) as [hs|e];
      [destruct (cutoff_of_heights hs)|]; cbn [fst].
    + split; intros (e & H); discriminate.
    + split; eauto.
Qed.

(** C8, as stated, fails.  The pool of [string_line_pair] holds a line, and
    the analysis ends the process all the same: line 170 computes the
    height of every pooled line outside every [try], and the height of
    this line raises.  And a file that does not parse does end the batch:
    in [scenario] the analysis warns about it and calibrates, then line 58
    parses it again and the exception ends the run after the first of the
    three pairs. *)
Lemma nonempty_pool_fatal_counterexample :
  (fst (pool_lines [string_line_pair]) = [JStr "x"] /\
   fst (global_analysis [string_line_pair]) = Uncaught AttributeError /\
   ~ (fatal (fst (global_analysis [string_line_pair])) <->
      fst (pool_lines [string_line_pair]) = [])) /\
  ((exists c, fst (global_analysis scenario) = Calibrated c) /\
   snd (main_full_mode scenario_documents) = Died ValueError /\
   List.length (fst (main_full_mode scenario_documents)) = 1%nat).
Proof.
  split; [split; [reflexivity | split; [reflexivity |]] |].
  - intros [H _]. discriminate (H I).
  - split; [eexists; reflexivity | split; reflexivity].
Qed.

(** C8, amended.  The analysis ends the process exactly when no line was
    pooled or the height of a pooled line cannot be computed: with
    [sys.exit(1)] in the first case and in no other, with the uncaught
    exception of line 170 in the second.  A JSON file that does not parse
    is reported by a warning and adds nothing to the pool: the pooled
    lines are those of the batch without it, and so is the way the
    analysis ends. *)
Theorem calibration_fatal_iff (file_pairs before after : list FilePair)
    (p : string) :
  let bad := {| json_path := p; json_file := LoadError |} in
  (fatal (fst (global_analysis file_pairs)) <->
   fst (pool_lines file_pairs) = [] \/
   Exists height_fails (fst (pool_lines file_pairs))) /\
  (fst (global_analysis file_pairs) = SysExit 1 <->
   fst (pool_lines file_pairs) = []) /\
  ((exists code, fst (global_analysis file_pairs) = SysExit code) <->
   fst (pool_lines file_pairs) = []) /\
  ((exists e, fst (global_analysis file_pairs) = Uncaught e) <->
   Exists height_fails (fst (pool_lines file_pairs))) /\
  fst (pool_lines (before ++ bad :: after)) = fst (pool_lines (before ++ after)) /\
  In (WarnCouldNotParse p) (snd (pool_lines (before ++ bad :: after))) /\
  fst (global_analysis (before ++ bad :: after))
  = fst (global_analysis (before ++ after)).
Proof.
  intros bad.
  assert (fst (pool_lines (before ++ bad :: after))
          = fst (pool_lines (before ++ after))) as Hsame.
  { unfold pool_lines. rewrite !fold_left_app. cbn [fold_left].
    destruct (fold_left pool_pair before ([], [])) as [ls out].
    unfold pool_pair at 2. cbn [bad json_file json_path].
    apply pool_fold_lines. }
  split; [apply fatal_iff_no_heights|].
  split; [rewrite exit_iff_no_lines; tauto|].
  split; [|split; [apply uncaught_iff_height_fails |
                   split; [exact Hsame | split]]].
  - split.
    + intros (code & H). now apply exit_iff_no_lines in H.
    + intros H. exists 1%Z. now apply exit_iff_no_lines.
  - unfold pool_lines. rewrite fold_left_app. cbn [fold_left].
    destruct (fold_left pool_pair before ([], [])) as [ls out].
    unfold pool_pair at 2. cbn [bad json_file json_path].
    destruct (pool_fold_messages after ls (out ++ [WarnCouldNotParse p]))
      as (more & ->).
    rewrite !in_app_iff. left. right. now left.
  - now apply outcome_of_lines.
Qed.

Lemma same_numbers_refl (a : list Q) : same_numbers a a.
Proof. induction a; constructor; [reflexivity | assumption]. Qed.

Lemma same_numbers_trans (a b c : list Q) :
  same_numbers a b -> same_numbers b c -> same_numbers a c.
Proof.
  intros H; revert c; induction H as [|x y a b Hxy _ IH]; intros c Hc.
  - exact Hc.
  - inversion Hc as [|? z ? c' Hyz Hbc]; subst.
    constructor; [now rewrite Hxy | now apply IH].
Qed.

Ltac qle_cases :=
  repeat match goal with
    | |- context [Qle_bool ?a ?b] =>
        let E := fresh "E" in
        destruct (Qle_bool a b) eqn:E;
        [ apply Qle_bool_iff in E
        | apply not_true_iff_false in E; rewrite Qle_bool_iff in E;
          apply Qnot_le_lt in E ];
        cbn [insert_sorted]
    end.

Lemma insert_sorted_same (x : Q) (a b : list Q) :
  same_numbers a b -> same_numbers (insert_sorted x a) (insert_sorted x b).
Proof.
  induction 1 as [|y z a b Hyz Hab IH]; cbn [insert_sorted].
  - apply same_numbers_refl.
  - qle_cases; try (exfalso; lra).
    + constructor; [reflexivity|]. now constructor.
    + now constructor.
Qed.

Lemma insert_sorted_swap (x y : Q) (s : list Q) :
  same_numbers (insert_sorted x (insert_sorted y s))
               (insert_sorted y (insert_sorted x s)).
Proof.
  induction s as [|a r IH]; cbn [insert_sorted].
  - qle_cases; try (exfalso; lra);
      repeat (constructor; try lra).
  - qle_cases; try (exfalso; lra);
      repeat (first [ exact IH | apply same_numbers_refl
                    | constructor; [lra|] ]).
Qed.

Lemma sort_permutation (a b : list Q) :
  Permutation a b -> same_numbers (sort a) (sort b).
Proof.
  induction 1 as [|x a b _ IH|x y a|a b c _ IH1 _ IH2]; cbn [sort fold_right].
  - constructor.
  - now apply insert_sorted_same.
  - apply insert_sorted_swap.
  - eapply same_numbers_trans; eassumption.
Qed.

Lemma nth_same (a b : list Q) (k : nat) :
  same_numbers a b -> (nth k a 0 == nth k b 0)%Q.
Proof.
  intros H; revert k; induction H as [|x y a b Hxy _ IH]; intros [|k]; simpl;
    try reflexivity; [exact Hxy | apply IH].
Qed.

(** The percentile is a function of the multiset of the data. *)
Lemma np_percentile_permutation (a b : list Q) (q : Q) :
  Permutation a b -> (np_percentile a q == np_percentile b q)%Q.
Proof.
  intros H. unfold np_percentile.
  rewrite <- (Permutation_length H).
  pose proof (sort_permutation a b H) as Hs.
  cbv zeta.
  set (j := Z.to_nat (Qfloor (inject_Z (Z.of_nat (List.length a) - 1) * (q / 100)))).
  rewrite (nth_same _ _ j Hs).
  rewrite (nth_same _ _ (Nat.min (j + 1) (List.length a - 1)) Hs).
  reflexivity.
Qed.

Lemma filter_positive_nonempty (heights : list Q) :
  Exists (fun h => (0 < h)%Q) heights ->
  List.filter (Py.Qlt_bool 0) heights <> [].
Proof.
  induction 1 as [h l H | h l _ IH]; simpl.
  - apply Qlt_bool_iff in H. now rewrite H.
  - now destruct (Py.Qlt_bool 0 h).
Qed.

Lemma filter_positive_empty (heights : list Q) :
  ~ Exists (fun h => (0 < h)%Q) heights ->
  List.filter (Py.Qlt_bool 0) heights = [].
Proof.
  induction heights as [|h l IH]; intros H; simpl; [reflexivity|].
  destruct (Py.Qlt_bool 0 h) eqn:E.
  - exfalso. apply H. left. now apply Qlt_bool_iff.
  - apply IH. intros C. apply H. now right.
Qed.

(** C1. When lines were pooled and their heights are [heights]: if a
    height is positive, the cutoff is 0.70 times the 90th percentile of
    the positive heights, listed in any order ([positive]); if none is,
    the warning of line 179 is printed and the cutoff is 0. *)
Theorem global_height_cutoff_formula (file_pairs : list FilePair)
    (heights positive : list Q) :
  fst (pool_lines file_pairs) <> [] ->
  mapM line_height (fst (pool_lines file_pairs)) = Ok heights ->
  Permutation positive (List.filter (Py.Qlt_bool 0) heights) ->
  (Exists (fun h => (0 < h)%Q) heights ->
   exists c,
     global_analysis file_pairs
     = (Calibrated c, snd (pool_lines file_pairs) ++ [InfoCutoff c]) /\
     (c == 0.70 * np_percentile positive 90)%Q) /\
  (~ Exists (fun h => (0 < h)%Q) heights ->
   global_analysis file_pairs
   = (Calibrated 0, snd (pool_lines file_pairs) ++ [WarnNoValidHeights])).
Proof.
  intros Hne Hh Hperm. unfold global_analysis.
  destruct (pool_lines file_pairs) as [ls out]. cbn [fst snd] in *.
  destruct ls as [|l ls]; [contradiction|]. rewrite Hh.
  unfold cutoff_of_heights. split.
  - intros Hpos. apply filter_positive_nonempty in Hpos.
    destruct (List.filter (Py.Qlt_bool 0) heights) as [|h hs] eqn:E;
      [contradiction|].
    eexists. split; [reflexivity|].
    rewrite (np_percentile_permutation _ _ 90 Hperm).
    unfold FURIGANA_HEIGHT_THRESHOLD_PERCENT, MAIN_TEXT_BENCHMARK_PERCENTILE.
    field.
  - intros Hnone. now rewrite (filter_positive_empty _ Hnone).
Qed.

Example scenario_cutoff :
  exists c,
    global_analysis scenario
    = (Calibrated c, [WarnCouldNotParse "broken.json"; InfoCutoff c]) /\
    (c == 21)%Q.
Proof. eexists. split; [reflexivity | reflexivity]. Qed.

Lemma global_height_cutoff_formula_witness :
  exists c,
    global_analysis scenario
    = (Calibrated c, snd (pool_lines scenario) ++ [InfoCutoff c]) /\
    (c == 0.70 * np_percentile [15; 30; 30; 30; 30; 30; 30; 30; 30; 30]%Q 90)%Q.
Proof.
  apply (global_height_cutoff_formula scenario
           [30; 30; 30; 30; 30; 30; 30; 15; 30; 30]%Q
           [15; 30; 30; 30; 30; 30; 30; 30; 30; 30]%Q).
  - discriminate.
  - reflexivity.
  - apply (Permutation_cons_app [30; 30; 30; 30; 30; 30; 30]%Q [30; 30]%Q 15%Q).
    reflexivity.
  - constructor. reflexivity.
Defined.

(** ** The image rebuild *)

Module RemoveOcrTextlayerFacts.
Import RemoveOcrTextlayer.
Import RemoveOcrTextlayerExamples.

Lemma remove_if_exists_same (path : string) (files : gmap string bytes) :
  remove_if_exists path files !! path = None.
Proof.
  unfold remove_if_exists. destruct (files !! path) as [b|] eqn:E.
  - apply lookup_delete_eq.
  - exact E.
Qed.

Lemma remove_if_exists_other (path other : string) (files : gmap string bytes) :
  path <> other -> remove_if_exists path files !! other = files !! other.
Proof.
  intros H. unfold remove_if_exists. destruct (files !! path) as [b|] eqn:E.
  - now apply lookup_delete_ne.
  - reflexivity.
Qed.

(** C10. The original is replaced only after [new_doc.save] has written
    the temporary file, and then by what was saved; when rebuilding or
    saving fails, the temporary file is removed and the original is left
    as it was. *)
Theorem original_replaced_after_save (B : backend) (pdf_path : string)
    (create_backup : bool) (files : gmap string bytes) :
  with_suffix B pdf_path ".tmp.pdf" <> pdf_path ->
  let r := rebuild_from_images B pdf_path create_backup files in
  (files_after r !! pdf_path <> files !! pdf_path ->
   exists original new_doc warnings saved,
     files !! pdf_path = Some original /\
     rebuilt B original = (warnings, Ok new_doc) /\
     save B new_doc = Saved saved /\
     files_after r !! pdf_path = Some saved) /\
  (forall original,
     files !! pdf_path = Some original ->
     raised r = None ->
     rebuild_error B original ->
     files_after r !! with_suffix B pdf_path ".tmp.pdf" = None /\
     files_after r !! pdf_path = files !! pdf_path).
Proof.
  intros Htmp r. subst r. unfold rebuild_from_images.
  destruct (files !! pdf_path) as [original|] eqn:Hpdf.
  2: { cbn [files_after]. split; [intros C; now rewrite Hpdf in C | discriminate]. }
  assert (forall files0 out,
            files0 !! pdf_path = Some original ->
            let r := rebuild_and_replace B pdf_path original files0 out in
            (files_after r !! pdf_path <> Some original ->
             exists new_doc warnings saved,
               rebuilt B original = (warnings, Ok new_doc) /\
               save B new_doc = Saved saved /\
               files_after r !! pdf_path = Some saved) /\
            (rebuild_error B original ->
             files_after r !! with_suffix B pdf_path ".tmp.pdf" = None /\
             files_after r !! pdf_path = Some original)) as Hcore.
  { intros files0 out H0 r. subst r.
    unfold rebuild_and_replace, rebuild_error.
    destruct (rebuilt B original) as [warnings [new_doc|e]] eqn:Hrebuilt.
    2: { cbn [files_after]. rewrite remove_if_exists_same.
         rewrite remove_if_exists_other by exact Htmp.
         split; [intros C; contradiction | auto]. }
    destruct (save B new_doc) as [saved|left_behind] eqn:Hsave.
    - destruct (move_ok B); cbn [files_after].
      + rewrite lookup_insert_eq. split; [|intros []].
        intros _. exists new_doc, warnings, saved. auto.
      + rewrite remove_if_exists_other by exact Htmp.
        rewrite lookup_insert_ne by exact Htmp.
        split; [intros C; contradiction | intros []].
    - cbn [files_after]. rewrite remove_if_exists_same.
      rewrite remove_if_exists_other by exact Htmp.
      destruct left_behind as [partial|].
      + rewrite lookup_insert_ne by exact Htmp.
        split; [intros C; contradiction | auto].
      + split; [intros C; contradiction | auto]. }
  destruct create_backup.
  - destruct (copy2_ok B).
    + assert (<[with_suffix B pdf_path ".bak.pdf" := original]> files !! pdf_path
              = Some original) as Hb.
      { destruct (decide (with_suffix B pdf_path ".bak.pdf" = pdf_path)) as [->|Hne].
        - apply lookup_insert_eq.
        - now rewrite lookup_insert_ne. }
      destruct (Hcore _ [CreatingBackup] Hb) as [H1 H2]. split.
      * intros C. destruct (H1 C) as (n & w & s & ?). exists original, n, w, s. tauto.
      * intros o Ho _ He. injection Ho as <-. now apply H2.
    + cbn [files_after raised]. split; [intros C; contradiction | discriminate].
  - destruct (Hcore files [] Hpdf) as [H1 H2]. split.
    + intros C. destruct (H1 C) as (n & w & s & ?). exists original, n, w, s. tauto.
    + intros o Ho _ He. injection Ho as <-. now apply H2.
Qed.

Lemma original_replaced_after_save_witness :
  files_after (rebuild_from_images plain_backend "scan.pdf" false corrupt_files)
    !! "scan.tmp.pdf" = None /\
  files_after (rebuild_from_images plain_backend "scan.pdf" false corrupt_files)
    !! "scan.pdf" = corrupt_files !! "scan.pdf".
Proof.
  apply (proj2 (original_replaced_after_save
                  plain_backend "scan.pdf" false corrupt_files
                  ltac:(discriminate)) "corrupt").
  - reflexivity.
  - reflexivity.
  - exact I.
Defined.

Example clean_rebuild :
  let r := rebuild_from_images plain_backend "scan.pdf" true scan_files in
  files_after r !! "scan.pdf" = Some "rebuilt" /\
  files_after r !! "scan.bak.pdf" = Some "original" /\
  files_after r !! "scan.tmp.pdf" = None /\
  printed r = [CreatingBackup; SavingNewPdf; Replacing; Success].
Proof. vm_compute. repeat split. Qed.

(** C10, as stated, fails: extracting the image raises during the
    rebuild, the image is skipped with a warning, and the original is
    replaced by the document without it. *)
Lemma skipped_image_counterexample :
  fitz_open lossy_backend "original"
  = Ok [ {| width := 100; height := 100;
            get_images := Ok [Raise ValueError] |} ] /\
  rebuilt lossy_backend "original"
  = ([WarnImage 1], Ok [ {| np_width := 100; np_height := 100; np_images := [] |} ]) /\
  printed (rebuild_from_images lossy_backend "scan.pdf" false scan_files)
  = [WarnImage 1; SavingNewPdf; Replacing; Success] /\
  files_after (rebuild_from_images lossy_backend "scan.pdf" false scan_files)
    !! "scan.pdf" = Some "rebuilt" /\
  files_after (rebuild_from_images lossy_backend "scan.pdf" false scan_files)
    !! "scan.pdf" <> scan_files !! "scan.pdf".
Proof. vm_compute. repeat split. discriminate. Qed.

End RemoveOcrTextlayerFacts.

(** * Further properties *)

(** ** Heights and main-text lines *)

Lemma filterM_total {A : Type} (p : A -> res bool) (l : list A) :
  Forall (fun x => exists b, p x = Ok b) l ->
  filterM p l
  = Ok (List.filter (fun x => match p x with Ok b => b | Raise _ => false end) l).
Proof.
  induction 1 as [|x l (b & Hb) _ IH]; simpl; [reflexivity|].
  rewrite Hb, IH. reflexivity.
Qed.

Lemma max_min_order (ys : list Q) (hi lo : Q) :
  Py.max ys = Ok hi -> Py.min ys = Ok lo -> (lo <= hi)%Q.
Proof.
  destruct ys as [|y r]; [discriminate|]. simpl. intros H1 H2.
  injection H1 as <-. injection H2 as <-.
  destruct (fold_max_greatest r y) as [_ Hmax].
  destruct (fold_min_least r y) as [Hin _].
  rewrite List.Forall_forall in Hmax. now apply Hmax.
Qed.

Lemma polygon_height_nonneg (polygon : json) (h : Q) :
  get_polygon_height polygon = Ok h -> (0 <= h)%Q.
Proof.
  unfold get_polygon_height. intros H.
  destruct (negb (Py.truthy polygon)); [injection H as <-; apply Qle_refl|].
  inv_bind H as n Hn. destruct (n <? 8)%nat; [injection H as <-; apply Qle_refl|].
  inv_bind H as y_coords Hy. inv_bind H as ys Hys.
  inv_bind H as hi Hhi. inv_bind H as lo Hlo. injection H as <-.
  pose proof (max_min_order ys hi lo Hhi Hlo). lra.
Qed.

Lemma line_height_nonneg (line : json) (h : Q) :
  line_height line = Ok h -> (0 <= h)%Q.
Proof.
  unfold line_height. intros H. inv_bind H as poly Hp.
  exact (polygon_height_nonneg poly h H).
Qed.

(** X1. Whatever value [get_polygon_height] is given, a height that it
    returns is not negative. *)
Theorem get_polygon_height_nonnegative (polygon : json) (h : Q) :
  get_polygon_height polygon = Ok h -> (0 <= h)%Q.
Proof. apply polygon_height_nonneg. Qed.

Lemma get_polygon_height_nonnegative_witness :
  get_polygon_height (numbers tall) = Ok 30%Q /\ (0 <= 30)%Q.
Proof.
  split; [reflexivity|].
  apply (get_polygon_height_nonnegative (numbers tall) 30). reflexivity.
Defined.

Lemma filter_all_true {A : Type} (f : A -> bool) (l : list A) :
  Forall (fun x => f x = true) l -> List.filter f l = l.
Proof.
  induction 1 as [|x l Hx _ IH]; simpl; [reflexivity|]. now rewrite Hx, IH.
Qed.

Lemma main_text_lines_filter (page_data ls : json) (lines : list json) (c : Q) :
  Py.get page_data "lines" (JArr []) = Ok ls ->
  Py.iter ls = Ok lines ->
  Forall (fun l => exists h, line_height l = Ok h) lines ->
  main_text_lines page_data c = Ok (List.filter (tall_enough c) lines).
Proof.
  intros Hls Hiter Hall. unfold main_text_lines.
  rewrite Hls; cbn [bind]. rewrite Hiter; cbn [bind].
  rewrite filterM_total.
  - f_equal. apply List.filter_ext. intros l. unfold tall_enough.
    now destruct (line_height l).
  - eapply List.Forall_impl; [|exact Hall]. intros l (h & ->). simpl. eauto.
Qed.

Lemma main_text_lines_heights (page_data : json) (c : Q) (m : list json) :
  main_text_lines page_data c = Ok m ->
  exists ls lines,
    Py.get page_data "lines" (JArr []) = Ok ls /\ Py.iter ls = Ok lines /\
    Forall (fun l => exists h, line_height l = Ok h) lines.
Proof.
  unfold main_text_lines. intros H. inv_bind H as ls Hls. inv_bind H as lines Hiter.
  exists ls, lines. split; [exact Hls|]. split; [exact Hiter|].
  apply filterM_Ok in H. destruct H as [Hall _].
  eapply List.Forall_impl; [|exact Hall]. intros l (b & Hb).
  inv_bind Hb as h Hh. eauto.
Qed.

(** X4. With a cutoff of 0 (the fallback of the analysis) or less, every
    line of the page whose height can be computed is a main-text line:
    nothing is filtered. *)
Theorem cutoff_zero_keeps_every_line (page_data ls : json) (lines : list json)
    (height_cutoff : Q) :
  (height_cutoff <= 0)%Q ->
  Py.get page_data "lines" (JArr []) = Ok ls ->
  Py.iter ls = Ok lines ->
  Forall (fun l => exists h, line_height l = Ok h) lines ->
  main_text_lines page_data height_cutoff = Ok lines.
Proof.
  intros Hc Hls Hiter Hall.
  rewrite (main_text_lines_filter _ _ _ _ Hls Hiter Hall). f_equal.
  apply filter_all_true. eapply List.Forall_impl; [|exact Hall].
  intros l (h & Hh). unfold tall_enough. rewrite Hh.
  apply Qle_bool_iff. pose proof (line_height_nonneg l h Hh). lra.
Qed.

Lemma cutoff_zero_keeps_every_line_witness :
  main_text_lines furigana_page 0
  = Ok [line_json small "ka" [span_json 0 2];
        line_json tall "kanji" [span_json 3 5];
        line_json tall "" [span_json 9 0];
        line_json tall "text" [span_json 10 4]].
Proof.
  apply (cutoff_zero_keeps_every_line furigana_page
           (JArr [line_json small "ka" [span_json 0 2];
                  line_json tall "kanji" [span_json 3 5];
                  line_json tall "" [span_json 9 0];
                  line_json tall "text" [span_json 10 4]])).
  - discriminate.
  - reflexivity.
  - reflexivity.
  - repeat constructor; eexists; reflexivity.
Defined.

(** X5. Raising the cutoff only removes main-text lines: the main-text
    lines for the higher cutoff are those for the lower one that pass the
    higher cutoff, in the same order. *)
Theorem higher_cutoff_keeps_fewer_lines (page_data : json) (c c' : Q)
    (m' : list json) :
  (c <= c')%Q ->
  main_text_lines page_data c' = Ok m' ->
  exists m,
    main_text_lines page_data c = Ok m /\
    m' = List.filter (tall_enough c') m /\
    incl m' m.
Proof.
  intros Hc H.
  destruct (main_text_lines_heights _ _ _ H) as (ls & lines & Hls & Hiter & Hall).
  rewrite (main_text_lines_filter _ _ _ _ Hls Hiter Hall) in H. injection H as <-.
  exists (List.filter (tall_enough c) lines).
  split; [exact (main_text_lines_filter _ _ _ _ Hls Hiter Hall)|].
  assert (List.filter (tall_enough c') lines
          = List.filter (tall_enough c') (List.filter (tall_enough c) lines)) as E.
  { clear - Hc. induction lines as [|l lines IH]; simpl; [reflexivity|].
    destruct (tall_enough c' l) eqn:E1, (tall_enough c l) eqn:E2; simpl;
      rewrite ?E1, ?IH; try reflexivity.
    exfalso. unfold tall_enough in *.
    destruct (line_height l) as [h|]; [|discriminate].
    apply Qle_bool_iff in E1.
    assert (Qle_bool c h = true) by (apply Qle_bool_iff; lra). congruence. }
  split; [exact E|].
  rewrite E. intros x Hx. apply List.filter_In in Hx. tauto.
Qed.

Lemma higher_cutoff_keeps_fewer_lines_witness :
  exists m,
    main_text_lines furigana_page 0 = Ok m /\
    [line_json tall "kanji" [span_json 3 5];
     line_json tall "" [span_json 9 0];
     line_json tall "text" [span_json 10 4]]
    = List.filter (tall_enough 21) m /\
    incl [line_json tall "kanji" [span_json 3 5];
          line_json tall "" [span_json 9 0];
          line_json tall "text" [span_json 10 4]] m.
Proof.
  apply (higher_cutoff_keeps_fewer_lines furigana_page 0 21).
  - discriminate.
  - reflexivity.
Defined.

(** ** Page extraction, once more *)

(** X2. On a JSON object [get_pages_from_json] never raises, and a
    non-empty ["pages"] is returned whatever else the object holds. *)
Theorem get_pages_from_json_object_returns (kvs : list (string * json)) :
  (exists v, get_pages_from_json (JObj kvs) = Ok v) /\
  (forall v, Py.lookup_key "pages" kvs = Some v -> Py.truthy v = true ->
             get_pages_from_json (JObj kvs) = Ok v).
Proof.
  rewrite get_pages_from_json_object. split; [eauto|].
  intros v Hv Ht. unfold pages_of. now rewrite Hv, Ht.
Qed.

Lemma get_pages_from_json_object_returns_witness :
  get_pages_from_json
    (JObj [("readResults", JArr [JNum 1]); ("pages", JArr [JNum 2])])
  = Ok (JArr [JNum 2]).
Proof.
  apply (proj2 (get_pages_from_json_object_returns
                  [("readResults", JArr [JNum 1]); ("pages", JArr [JNum 2])]));
    reflexivity.
Defined.

(** X3. Only a JSON object gives pages.  For a parsed document of any
    other kind (null, a boolean, a number, a string, an array)
    [get_pages_from_json] raises or returns the empty list, and on null,
    a boolean or a number it always raises [TypeError]. *)
Theorem get_pages_from_json_needs_object (data : json) :
  Py.is_dict data = false ->
  (get_pages_from_json data = Ok (JArr []) \/
   exists e, get_pages_from_json data = Raise e) /\
  (Py.iter data = Raise TypeError ->
   get_pages_from_json data = Raise TypeError).
Proof.
  intros Hd. destruct data as [|b|q|s|l|kvs]; try discriminate Hd;
    try (split; [right; eexists|intros _]; reflexivity);
    (split; [|discriminate]); unfold get_pages_from_json;
    cbn [Py.contains Py.getitem Py.get and_then bind].
  - destruct (Py.is_substring "pages" s); cbn [and_then bind]; [eauto|].
    destruct (Py.is_substring "analyzeResult" s); cbn [and_then bind]; [eauto|].
    destruct (Py.is_substring "readResults" s); cbn [and_then bind]; eauto.
  - destruct (existsb (Py.is_str "pages") l); cbn [and_then bind]; [eauto|].
    destruct (existsb (Py.is_str "analyzeResult") l); cbn [and_then bind];
      [eauto|].
    destruct (existsb (Py.is_str "readResults") l); cbn [and_then bind]; eauto.
Qed.

Lemma get_pages_from_json_needs_object_witness :
  (get_pages_from_json (JArr [JObj [("pages", JArr [JNum 1])]]) = Ok (JArr []) \/
   exists e,
     get_pages_from_json (JArr [JObj [("pages", JArr [JNum 1])]]) = Raise e) /\
  (Py.iter (JArr [JObj [("pages", JArr [JNum 1])]]) = Raise TypeError ->
   get_pages_from_json (JArr [JObj [("pages", JArr [JNum 1])]])
   = Raise TypeError).
Proof.
  apply (get_pages_from_json_needs_object
           (JArr [JObj [("pages", JArr [JNum 1])]])).
  reflexivity.
Defined.

(** ** The page loop *)

(** X6. A document whose first page is an object without ["pageNumber"]
    (the items of [readResults] carry their number under ["page"]) makes
    [process_full_workflow] raise [KeyError], whatever the number of PDF
    pages: line 69 reads the key before the [break] test. *)
Theorem page_without_number_raises (n_pdf_pages : nat) (data : json)
    (kvs : list (string * json)) (rest : list json) (height_cutoff : Q) :
  get_pages_from_json data = Ok (JArr (JObj kvs :: rest)) ->
  Py.lookup_key "pageNumber" kvs = None ->
  process_full_workflow n_pdf_pages data height_cutoff = Raise KeyError.
Proof.
  intros Hpages Hnum. unfold process_full_workflow. rewrite Hpages.
  cbn [bind Py.truthy negb]. unfold scale_factor_of.
  cbn [Py.index Py.list_index nth_error bind Py.get].
  destruct (Py.lookup_key "unit" kvs); cbn [bind Py.iter pages_loop Py.getitem];
    now rewrite Hnum.
Qed.

Lemma page_without_number_raises_witness :
  process_full_workflow 0 read_results_document 21 = Raise KeyError.
Proof.
  apply (page_without_number_raises 0 read_results_document
           [("page", JNum 1); ("unit", JStr "pixel");
            ("lines", JArr [line_json tall "a" [span_json 0 1]])] []);
    reflexivity.
Defined.

Lemma page_chunk_nonempty (page_num : json) (text : string) :
  Forall (fun c => content c <> "") (page_chunk page_num text) /\
  (List.length (page_chunk page_num text) <= 1)%nat.
Proof.
  unfold page_chunk. simpl. destruct (String.eqb text "") eqn:E; simpl.
  - split; [constructor | lia].
  - split; [|lia]. constructor; [|constructor]. simpl. now apply String.eqb_neq.
Qed.

Lemma pages_loop_bounds (n : nat) (sf c : Q) (pages : list json) :
  forall (i : nat) (chunks : list chunk) (inss : list insertion),
    pages_loop n sf c i pages = Ok (chunks, inss) ->
    Forall (fun ins => (i <= ins_page ins < n)%nat) inss /\
    Forall (fun ch => content ch <> "") chunks /\
    (List.length chunks <= n - i)%nat /\
    (List.length chunks <= List.length pages)%nat.
Proof.
  induction pages as [|page_data rest IH]; intros i chunks inss H.
  - injection H as <- <-. repeat split; try constructor; simpl; lia.
  - cbn [pages_loop] in H. inv_bind H as page_num Hnum.
    destruct (n <=? i)%nat eqn:En.
    { injection H as <- <-. repeat split; try constructor; simpl; lia. }
    apply Nat.leb_gt in En.
    inv_bind H as here Hhere. inv_bind H as later Hlater.
    injection H as <- <-. destruct here as [cs1 ins1], later as [cs2 ins2].
    cbn [fst snd]. destruct (IH _ _ _ Hlater) as (Hi & Hc & Hn & Hl).
    pose proof Hhere as Hpage. unfold process_page in Hpage.
    inv_bind Hpage as mtl Hmtl. inv_bind Hpage as text Htext.
    inv_bind Hpage as ins Hins. injection Hpage as <- <-.
    destruct (page_chunk_nonempty page_num text) as [Hne Hlen].
    split; [|split; [|split]].
    + apply Forall_app. split.
      * apply List.Forall_forall. intros x Hx.
        destruct (process_page_placed _ _ _ _ _ _ _ _ Hhere Hx) as [-> _]. lia.
      * eapply List.Forall_impl; [|exact Hi]. simpl. intros; lia.
    + apply Forall_app. now split.
    + rewrite length_app. lia.
    + rewrite length_app. simpl. lia.
Qed.

(** X7. Text is only inserted on pages that the rebuilt PDF has: the page
    index of every insertion is below the number of PDF pages, and there
    are at most that many chunks (OCR pages beyond the last PDF page are
    ignored). *)
Theorem text_layer_within_pdf_pages (n_pdf_pages : nat) (data : json)
    (height_cutoff : Q) (text_layer : list insertion) (chunks : list chunk) :
  process_full_workflow n_pdf_pages data height_cutoff
  = Ok (Rebuilt text_layer chunks) ->
  Forall (fun ins => (ins_page ins < n_pdf_pages)%nat) text_layer /\
  (List.length chunks <= n_pdf_pages)%nat.
Proof.
  intros H. unfold process_full_workflow in H.
  inv_bind H as pages_data Hpages.
  destruct (negb (Py.truthy pages_data)); [discriminate|].
  inv_bind H as sf Hsf. inv_bind H as pages Hiter. inv_bind H as r Hloop.
  injection H as <- <-. destruct r as [cs inss].
  destruct (pages_loop_bounds _ _ _ _ _ _ _ Hloop) as (Hi & _ & Hn & _).
  cbn [fst snd]. split; [|lia].
  eapply List.Forall_impl; [|exact Hi]. simpl. intros; lia.
Qed.

Lemma text_layer_within_pdf_pages_witness :
  Forall (fun ins => (ins_page ins < 2)%nat)
         [ {| ins_page := 1; ins_x := 1; ins_y := 2; ins_text := JStr "a" |} ] /\
  (List.length [ {| page_number := JNum 2; content := "a" |} ] <= 2)%nat.
Proof.
  apply (text_layer_within_pdf_pages 2 two_unit_document 21).
  reflexivity.
Defined.

(** X8. No chunk of the RAG output has an empty content, and there are
    at most as many chunks as OCR pages. *)
Theorem chunks_are_not_empty (n_pdf_pages : nat) (data : json)
    (height_cutoff : Q) (text_layer : list insertion) (chunks : list chunk) :
  process_full_workflow n_pdf_pages data height_cutoff
  = Ok (Rebuilt text_layer chunks) ->
  Forall (fun ch => content ch <> "") chunks /\
  exists pages_data pages,
    get_pages_from_json data = Ok pages_data /\
    Py.iter pages_data = Ok pages /\
    (List.length chunks <= List.length pages)%nat.
Proof.
  intros H. unfold process_full_workflow in H.
  inv_bind H as pages_data Hpages.
  destruct (negb (Py.truthy pages_data)); [discriminate|].
  inv_bind H as sf Hsf. inv_bind H as pages Hiter. inv_bind H as r Hloop.
  injection H as <- <-. destruct r as [cs inss].
  destruct (pages_loop_bounds _ _ _ _ _ _ _ Hloop) as (_ & Hc & _ & Hl).
  cbn [fst snd]. split; [exact Hc|]. exists pages_data, pages. auto.
Qed.

Lemma chunks_are_not_empty_witness :
  Forall (fun ch => content ch <> "")
         [ {| page_number := JNum 2; content := "a" |} ] /\
  exists pages_data pages,
    get_pages_from_json two_unit_document = Ok pages_data /\
    Py.iter pages_data = Ok pages /\
    (List.length [ {| page_number := JNum 2; content := "a" |} ]
     <= List.length pages)%nat.
Proof.
  apply (chunks_are_not_empty 2 two_unit_document 21
           [ {| ins_page := 1; ins_x := 1; ins_y := 2; ins_text := JStr "a" |} ]).
  reflexivity.
Defined.

(** X9. A word with a non-empty text and a polygon of at least 8 numbers
    gives exactly one insertion, at the items 6 and 7 of the polygon
    times the scale factor. *)
Theorem insert_word_places_one_text (i : nat) (sf : Q) (word : json)
    (poly : list Q) (text : string) :
  get_item_poly word = Ok (numbers poly) ->
  get_item_text word = Ok (JStr text) ->
  text <> "" -> (8 <= List.length poly)%nat ->
  insert_word i sf word
  = Ok [ {| ins_page := i;
            ins_x := (nth 6 poly 0 * sf)%Q;
            ins_y := (nth 7 poly 0 * sf)%Q;
            ins_text := JStr text |} ].
Proof.
  intros Hp Ht Hne Hlen. unfold insert_word. rewrite Hp, Ht. cbn [bind].
  assert (Py.truthy (numbers poly) = true) as ->
    by (destruct poly; [simpl in Hlen; lia | reflexivity]).
  assert (Py.truthy (JStr text) = true) as ->
    by (simpl; apply negb_true_iff; now apply String.eqb_neq).
  cbn [negb orb Py.iter numbers bind].
  rewrite mapM_compose.
  rewrite (mapM_ext_in _ (fun q => (q * sf)%Q)) by reflexivity.
  cbn [bind]. unfold Py.list_index.
  rewrite !nth_error_map.
  rewrite (nth_error_nth' poly 0%Q) by lia.
  rewrite (nth_error_nth' poly 0%Q) by lia.
  reflexivity.
Qed.

Lemma insert_word_places_one_text_witness :
  insert_word 0 72 word_15
  = Ok [ {| ins_page := 0;
            ins_x := (nth 6 tall 0 * 72)%Q;
            ins_y := (nth 7 tall 0 * 72)%Q;
            ins_text := JStr "w" |} ].
Proof.
  apply (insert_word_places_one_text 0 72 word_15 tall "w").
  - reflexivity.
  - reflexivity.
  - discriminate.
  - simpl. lia.
Defined.

Lemma filter_all_false {A : Type} (f : A -> bool) (l : list A) :
  Forall (fun x => f x = false) l -> List.filter f l = [].
Proof.
  induction 1 as [|x l Hx _ IH]; simpl; [reflexivity|]. now rewrite Hx.
Qed.

Lemma no_main_text_lines (c : Q) (page_data : json) :
  no_main_text c page_data -> main_text_lines page_data c = Ok [].
Proof.
  intros (_ & lines & Hls & Hall).
  rewrite (main_text_lines_filter page_data (JArr lines) lines c Hls eq_refl).
  - f_equal. apply filter_all_false.
    eapply List.Forall_impl; [|exact Hall]. intros line (h & Hh & Hlt).
    unfold tall_enough. rewrite Hh.
    destruct (Qle_bool c h) eqn:E; [|reflexivity].
    apply Qle_bool_iff in E. exfalso. exact (Qlt_not_le _ _ Hlt E).
  - eapply List.Forall_impl; [|exact Hall]. intros line (h & Hh & _). eauto.
Qed.

Lemma pages_loop_no_main_text (n : nat) (sf c : Q) (pages : list json) :
  Forall (no_main_text c) pages ->
  forall i : nat, pages_loop n sf c i pages = Ok ([], []).
Proof.
  induction 1 as [|page_data rest Hpage _ IH]; intros i; cbn [pages_loop];
    [reflexivity|].
  destruct (proj1 Hpage) as (num & ->). cbn [bind].
  destruct (n <=? i)%nat; [reflexivity|].
  unfold process_page. rewrite (no_main_text_lines c page_data Hpage).
  cbn [bind]. rewrite IH. reflexivity.
Qed.

(** X11. When every page has its number and no line of any page reaches
    the cutoff (a page without lines included), the document still gets
    its rebuilt PDF, but nothing is inserted in it and no chunk is made,
    so no RAG JSON is written. *)
Theorem no_main_text_no_output (n_pdf_pages : nat) (data : json)
    (height_cutoff : Q) (pages : list json) :
  get_pages_from_json data = Ok (JArr pages) ->
  pages <> [] ->
  Forall (no_main_text height_cutoff) pages ->
  process_full_workflow n_pdf_pages data height_cutoff = Ok (Rebuilt [] []).
Proof.
  intros Hpages Hne Hall. unfold process_full_workflow.
  rewrite Hpages. cbn [bind].
  destruct pages as [|first rest]; [congruence|]. cbn [Py.truthy negb].
  assert (exists kvs, first = JObj kvs) as (kvs & ->).
  { inversion Hall as [|? ? ((num & Hnum) & _) _]; subst.
    destruct first; try discriminate Hnum. eauto. }
  unfold scale_factor_of. cbn [Py.index Py.list_index nth_error bind Py.get].
  destruct (Py.lookup_key "unit" kvs); cbn [bind Py.iter];
    now rewrite pages_loop_no_main_text.
Qed.

Lemma no_main_text_no_output_witness :
  process_full_workflow 2 two_unit_document 1000 = Ok (Rebuilt [] []).
Proof.
  apply (no_main_text_no_output 2 two_unit_document 1000
           [page_json 1 "pixel" [] []; inch_page]).
  - reflexivity.
  - discriminate.
  - repeat constructor.
    + eexists. reflexivity.
    + exists []. split; [reflexivity | constructor].
    + eexists. reflexivity.
    + eexists. split; [reflexivity|].
      repeat constructor. exists 30%Q. split; reflexivity.
Defined.

(** ** Words without a span *)

Lemma associated_words_typed (page_data line : json) (spans words : list json) :
  Py.get line "spans" (JArr []) = Ok (JArr spans) ->
  Py.get page_data "words" (JArr []) = Ok (JArr words) ->
  Forall (fun s => exists o n, span_is s o n) spans ->
  Forall (fun word => exists w, word_start word = Ok (JNum w)) words ->
  exists ws,
    associated_words page_data line = Ok ws /\
    forall word,
      In word ws ->
      In word words /\
      exists s o n w,
        In s spans /\ span_is s o n /\
        word_start word = Ok (JNum w) /\ (o <= w < o + n)%Q.
Proof.
  intros Hss Hws Hspans Hwords.
  unfold associated_words, words_of_line. rewrite Hss. cbn [bind Py.iter].
  set (f := words_of_span _ page_data).
  assert (Forall (fun x => exists ys, f x = Ok ys) spans) as Htot.
  { eapply List.Forall_impl; [|exact Hspans]. intros s (o & n & Hs).
    destruct (words_of_span_typed page_data s words o n Hws Hwords Hs)
      as (r & Hr & _). eauto. }
  destruct (concatM_total f spans Htot) as (ws & Hr).
  exists ws. split; [exact Hr|]. intros word Hin.
  apply (concatM_In f spans ws Hr word) in Hin.
  destruct Hin as (s & ys & Hs & Hf & Hy).
  rewrite List.Forall_forall in Hspans. destruct (Hspans s Hs) as (o & n & Hsp).
  destruct (words_of_span_typed page_data s words o n Hws Hwords Hsp)
    as (r & Hr' & Hiff).
  unfold f in Hf. rewrite Hr' in Hf. injection Hf as <-.
  apply Hiff in Hy. destruct Hy as (Hw & w & Hw' & Hrange).
  split; [exact Hw|]. exists s, o, n, w. auto.
Qed.

(** X10. A word without a ["span"] is read as starting at -1: when the
    spans of a line start at 0 or later, the word is not associated with
    the line, so its text never enters the text layer for that line. *)
Theorem word_without_span_is_skipped (page_data line : json)
    (spans words : list json) (kvs : list (string * json)) :
  Py.get line "spans" (JArr []) = Ok (JArr spans) ->
  Py.get page_data "words" (JArr []) = Ok (JArr words) ->
  Forall (fun s => exists o n, span_is s o n /\ (0 <= o)%Q) spans ->
  Forall (fun word => exists w, word_start word = Ok (JNum w)) words ->
  Py.lookup_key "span" kvs = None ->
  exists ws,
    associated_words page_data line = Ok ws /\ ~ In (JObj kvs) ws.
Proof.
  intros Hss Hws Hspans Hwords Hno.
  assert (Forall (fun s => exists o n, span_is s o n) spans) as Hspans'.
  { eapply List.Forall_impl; [|exact Hspans]. intros s (o & n & H & _). eauto. }
  destruct (associated_words_typed _ _ _ _ Hss Hws Hspans' Hwords) as (ws & Hr & Hin).
  exists ws. split; [exact Hr|]. intros C.
  destruct (Hin _ C) as (_ & s & o & n & w & Hs & Hsp & Hw & Hrange).
  unfold word_start in Hw. simpl in Hw. rewrite Hno in Hw. simpl in Hw.
  injection Hw as <-.
  rewrite List.Forall_forall in Hspans.
  destruct (Hspans s Hs) as (o' & n' & [Ho' _] & Hpos).
  destruct Hsp as [Ho _]. rewrite Ho in Ho'. injection Ho' as <-.
  destruct Hrange as [Hle _]. lra.
Qed.

Lemma word_without_span_is_skipped_witness :
  exists ws,
    associated_words spanless_page line_10_20 = Ok ws /\
    ~ In spanless_word ws.
Proof.
  apply (word_without_span_is_skipped spanless_page line_10_20
           [span_json 10 10] [word_15; spanless_word]
           [("polygon", numbers tall); ("content", JStr "x")]).
  - reflexivity.
  - reflexivity.
  - repeat constructor. exists 10%Q, 10%Q. repeat split. discriminate.
  - repeat constructor; eexists; reflexivity.
  - reflexivity.
Defined.

(** ** The pool and the cutoff *)

Lemma extend_lines_acc (pages : list json) :
  forall acc : list json,
    extend_lines pages acc
    = (acc ++ fst (extend_lines pages []), snd (extend_lines pages [])).
Proof.
  induction pages as [|page rest IH]; intros acc; cbn [extend_lines].
  - simpl. now rewrite app_nil_r.
  - destruct (let* ls := Py.get page "lines" (JArr []) in Py.iter ls) as [ls|e].
    + rewrite (IH (acc ++ ls)), (IH ([] ++ ls)). simpl. now rewrite app_assoc.
    + simpl. now rewrite app_nil_r.
Qed.

Lemma extend_lines_app (a b : list json) :
  forall acc,
    extend_lines (a ++ b) acc
    = match extend_lines a acc with
      | (l, None) => extend_lines b l
      | (l, Some e) => (l, Some e)
      end.
Proof.
  induction a as [|page a IH]; intros acc; cbn [extend_lines app]; [reflexivity|].
  destruct (let* ls := Py.get page "lines" (JArr []) in Py.iter ls) as [ls|e];
    [apply IH | reflexivity].
Qed.

Lemma pool_pair_acc (acc : list json) (out : list message) (p : FilePair) :
  fst (pool_pair (acc, out) p) = acc ++ document_lines p.
Proof.
  unfold document_lines, pool_pair.
  destruct (json_file p) as [|data]; [simpl; now rewrite app_nil_r|].
  destruct (get_pages_from_json data) as [pages|]; [|simpl; now rewrite app_nil_r].
  destruct (Py.truthy pages); [|simpl; now rewrite app_nil_r].
  destruct (Py.iter pages) as [ps|]; [|simpl; now rewrite app_nil_r].
  rewrite (extend_lines_acc ps acc).
  destruct (extend_lines ps []) as [ls [e|]]; reflexivity.
Qed.

Lemma pool_fold_acc (l : list FilePair) :
  forall (acc : list json) (out : list message),
    fst (fold_left pool_pair l (acc, out))
    = acc ++ concat (map document_lines l).
Proof.
  induction l as [|p l IH]; intros acc out; cbn [fold_left map concat].
  - now rewrite app_nil_r.
  - pose proof (pool_pair_acc acc out p) as H.
    destruct (pool_pair (acc, out) p) as [a b]. simpl in H. subst a.
    rewrite IH. now rewrite app_assoc.
Qed.

Lemma pool_lines_is_concat (a : list FilePair) :
  fst (pool_lines a) = concat (map document_lines a).
Proof. unfold pool_lines. now rewrite pool_fold_acc. Qed.

(** X12. The pool is the concatenation, in the order of the batch, of
    what each pair adds on its own; the pool of two batches in a row is
    the pool of the first followed by the pool of the second. *)
Theorem pool_lines_concat (a b : list FilePair) :
  fst (pool_lines a) = concat (map document_lines a) /\
  fst (pool_lines (a ++ b)) = fst (pool_lines a) ++ fst (pool_lines b).
Proof.
  rewrite !pool_lines_is_concat. split; [reflexivity|].
  now rewrite map_app, concat_app.
Qed.

Lemma concat_map_permutation {A B : Type} (f : A -> list B) (a b : list A) :
  Permutation a b -> Permutation (concat (map f a)) (concat (map f b)).
Proof.
  induction 1 as [|x a b _ IH|x y a|a b c _ IH1 _ IH2]; simpl.
  - constructor.
  - now apply Permutation_app_head.
  - rewrite !app_assoc. apply Permutation_app_tail, Permutation_app_comm.
  - now transitivity (concat (map f b)).
Qed.

Lemma mapM_permutation {A B : Type} (f : A -> res B) (l l' : list A) :
  Permutation l l' ->
  forall hs, mapM f l = Ok hs ->
  exists hs', mapM f l' = Ok hs' /\ Permutation hs hs'.
Proof.
  induction 1 as [|x a b _ IH|x y a|a b c _ IH1 _ IH2]; intros hs H.
  - exists hs. split; [exact H | reflexivity].
  - cbn [mapM] in *. inv_bind H as h Hh. inv_bind H as r Hr. injection H as <-.
    destruct (IH _ Hr) as (r' & -> & Hp). rewrite Hh. cbn [bind].
    exists (h :: r'). split; [reflexivity | now constructor].
  - cbn [mapM] in *. inv_bind H as h1 H1. inv_bind H as r H2.
    inv_bind H2 as h2 H2'. inv_bind H2 as r2 Hr. injection H2 as <-.
    injection H as <-. rewrite H2', H1, Hr. cbn [bind].
    exists (h2 :: h1 :: r2). split; [reflexivity | constructor].
  - destruct (IH1 _ H) as (h1 & H1 & P1). destruct (IH2 _ H1) as (h2 & H2 & P2).
    exists h2. split; [exact H2 | now transitivity h1].
Qed.

Lemma filter_permutation {A : Type} (f : A -> bool) (l l' : list A) :
  Permutation l l' -> Permutation (List.filter f l) (List.filter f l').
Proof.
  induction 1 as [|x a b _ IH|x y a|a b c _ IH1 _ IH2]; simpl.
  - constructor.
  - destruct (f x); [now constructor | exact IH].
  - destruct (f x), (f y); try reflexivity. constructor.
  - now transitivity (List.filter f b).
Qed.

(** X13. The cutoff does not depend on the order in which the directory
    lists the pairs: for a reordered batch the analysis ends with a cutoff
    that is equal as a number. *)
Theorem cutoff_independent_of_order (a b : list FilePair) (c : Q)
    (heights : list Q) :
  Permutation a b ->
  mapM line_height (fst (pool_lines a)) = Ok heights ->
  fst (global_analysis a) = Calibrated c ->
  exists c', fst (global_analysis b) = Calibrated c' /\ (c == c')%Q.
Proof.
  intros Hperm Hh Ha.
  assert (Permutation (fst (pool_lines a)) (fst (pool_lines b))) as Hlines.
  { rewrite !pool_lines_is_concat. now apply concat_map_permutation. }
  destruct (mapM_permutation _ _ _ Hlines _ Hh) as (heights' & Hh' & Hph).
  unfold global_analysis in *.
  destruct (pool_lines a) as [la oa], (pool_lines b) as [lb ob].
  cbn [fst] in *.
  destruct la as [|l la]; [discriminate Ha|].
  destruct lb as [|l' lb];
    [apply Permutation_sym, Permutation_nil in Hlines; discriminate|].
  rewrite Hh in Ha. rewrite Hh'.
  pose proof (filter_permutation (Py.Qlt_bool 0) _ _ Hph) as Hpos.
  unfold cutoff_of_heights in *.
  destruct (List.filter (Py.Qlt_bool 0) heights) as [|h hs] eqn:E,
           (List.filter (Py.Qlt_bool 0) heights') as [|h' hs'] eqn:E'.
  - cbn [fst] in *. injection Ha as <-. exists 0%Q. split; reflexivity.
  - apply Permutation_nil in Hpos. discriminate.
  - apply Permutation_sym, Permutation_nil in Hpos. discriminate.
  - cbn [fst] in *. injection Ha as <-. eexists. split; [reflexivity|].
    now rewrite (np_percentile_permutation _ _ MAIN_TEXT_BENCHMARK_PERCENTILE Hpos).
Qed.

Lemma cutoff_independent_of_order_witness :
  exists c', fst (global_analysis (rev scenario)) = Calibrated c' /\
             (21.0000 == c')%Q.
Proof.
  apply (cutoff_independent_of_order scenario (rev scenario) 21.0000
           [30; 30; 30; 30; 30; 30; 30; 15; 30; 30]%Q).
  - apply Permutation_rev.
  - reflexivity.
  - reflexivity.
Defined.

Lemma insert_sorted_In (x y : Q) (l : list Q) :
  In y (insert_sorted x l) <-> y = x \/ In y l.
Proof.
  induction l as [|z l IH]; simpl.
  - intuition.
  - destruct (Qle_bool x z); simpl; [intuition|]. rewrite IH. intuition.
Qed.

Lemma sort_In (y : Q) (l : list Q) : In y (sort l) <-> In y l.
Proof.
  induction l as [|x l IH]; simpl; [reflexivity|].
  unfold sort in *. simpl. rewrite insert_sorted_In, IH. intuition.
Qed.

Lemma insert_sorted_length (x : Q) (l : list Q) :
  List.length (insert_sorted x l) = S (List.length l).
Proof.
  induction l as [|z l IH]; simpl; [reflexivity|].
  destruct (Qle_bool x z); simpl; [reflexivity | now rewrite IH].
Qed.

Lemma sort_length (l : list Q) : List.length (sort l) = List.length l.
Proof.
  induction l as [|x l IH]; [reflexivity|].
  unfold sort in *. simpl. now rewrite insert_sorted_length, IH.
Qed.

(** The percentile lies between any lower and upper bound of the data. *)
Lemma np_percentile_between (a : list Q) (q m M : Q) :
  a <> [] -> (0 <= q <= 100)%Q ->
  Forall (fun h => (m <= h)%Q) a -> Forall (fun h => (h <= M)%Q) a ->
  (m <= np_percentile a q <= M)%Q.
Proof.
  intros Hne Hq Hm HM. unfold np_percentile.
  set (n := List.length a).
  set (vi := (inject_Z (Z.of_nat n - 1) * (q / 100))%Q).
  set (j := Qfloor vi).
  assert (0 < n)%nat as Hn by (unfold n; destruct a; [contradiction | simpl; lia]).
  assert (0 <= inject_Z (Z.of_nat n - 1))%Q as Hn1.
  { change 0%Q with (inject_Z 0). rewrite <- Zle_Qle. lia. }
  assert (0 <= q / 100 <= 1)%Q as Hq1.
  { split.
    - apply Qle_shift_div_l; lra.
    - apply Qle_shift_div_r; lra. }
  assert (0 <= vi)%Q as Hvi0 by (unfold vi; nra).
  assert (vi <= inject_Z (Z.of_nat n - 1))%Q as Hvi1 by (unfold vi; nra).
  assert (0 <= j)%Z as Hj0.
  { unfold j. rewrite <- (Qfloor_Z 0). now apply Qfloor_resp_le. }
  assert (j <= Z.of_nat n - 1)%Z as Hj1.
  { unfold j. rewrite <- (Qfloor_Z (Z.of_nat n - 1)). now apply Qfloor_resp_le. }
  pose proof (Qfloor_le vi) as Hg0. pose proof (Qlt_floor vi) as Hg1.
  fold j in Hg0, Hg1. rewrite inject_Z_plus in Hg1.
  assert (forall k, (k < n)%nat ->
            (m <= nth k (sort a) 0 <= M)%Q) as Hnth.
  { intros k Hk.
    assert (In (nth k (sort a) 0%Q) a) as Hin.
    { apply sort_In, nth_In. rewrite sort_length. exact Hk. }
    rewrite List.Forall_forall in Hm, HM. split; [now apply Hm | now apply HM]. }
  assert (Z.to_nat j < n)%nat as Hk1 by lia.
  assert (Nat.min (Z.to_nat j + 1) (n - 1) < n)%nat as Hk2
    by (apply Nat.min_lt_iff; right; lia).
  destruct (Hnth _ Hk1) as [Hlo1 Hlo2]. destruct (Hnth _ Hk2) as [Hhi1 Hhi2].
  set (lo := nth (Z.to_nat j) (sort a) 0%Q) in *.
  set (hi := nth (Nat.min (Z.to_nat j + 1) (n - 1)) (sort a) 0%Q) in *.
  change (inject_Z 1) with 1%Q in Hg1.
  set (g := (vi - inject_Z j)%Q).
  assert (0 <= g <= 1)%Q as Hg by (unfold g; clearbody vi j; lra).
  clearbody lo hi g. split; nra.
Qed.

Lemma mapM_In {A B : Type} (f : A -> res B) (l : list A) (r : list B) :
  mapM f l = Ok r ->
  (forall x, In x l -> exists y, f x = Ok y /\ In y r) /\
  (forall y, In y r -> exists x, In x l /\ f x = Ok y).
Proof.
  revert r; induction l as [|a l IH]; intros r H; simpl in H.
  - injection H as <-. split; intros ? [].
  - inv_bind H as b Hb. inv_bind H as bs Hbs. injection H as <-.
    destruct (IH _ Hbs) as [H1 H2]. split.
    + intros x [<- | Hx]; [exists b; simpl; auto|].
      destruct (H1 x Hx) as (y & Hy & Hin). exists y. simpl; auto.
    + intros y [<- | Hy]; [exists a; simpl; auto|].
      destruct (H2 y Hy) as (x & Hx & Hf). exists x. simpl; auto.
Qed.

Lemma cutoff_of_heights_bounds (heights : list Q) (M : Q) :
  heights <> [] ->
  Forall (fun h => (0 <= h)%Q) heights ->
  Forall (fun h => (h <= M)%Q) heights ->
  (0 <= fst (cutoff_of_heights heights) <= M)%Q.
Proof.
  intros Hne Hpos HM. unfold cutoff_of_heights.
  destruct (List.filter (Py.Qlt_bool 0) heights) as [|h hs] eqn:E; cbn [fst].
  - destruct heights as [|h0 r]; [contradiction|].
    inversion Hpos; subst. inversion HM; subst. split; lra.
  - assert (Forall (fun x => (0 <= x)%Q) (h :: hs)) as H0.
    { rewrite <- E. apply List.Forall_forall. intros x Hx.
      apply List.filter_In in Hx. destruct Hx as [Hx _].
      rewrite List.Forall_forall in Hpos. now apply Hpos. }
    assert (Forall (fun x => (x <= M)%Q) (h :: hs)) as H1.
    { rewrite <- E. apply List.Forall_forall. intros x Hx.
      apply List.filter_In in Hx. destruct Hx as [Hx _].
      rewrite List.Forall_forall in HM. now apply HM. }
    assert (0 <= 90 <= 100)%Q as Hq by (split; discriminate).
    destruct (np_percentile_between (h :: hs) 90 0 M ltac:(discriminate) Hq H0 H1)
      as [Hp0 Hp1].
    unfold MAIN_TEXT_BENCHMARK_PERCENTILE, FURIGANA_HEIGHT_THRESHOLD_PERCENT.
    set (p := np_percentile (h :: hs) 90) in *. clearbody p.
    assert (70 / 100 == 7 # 10)%Q as -> by reflexivity.
    split; lra.
Qed.

(** X14. The cutoff is never negative and never above the height of the
    tallest pooled line, so a tallest line is always a main-text line:
    the filter never removes every line of the batch. *)
Theorem tallest_line_is_main_text (file_pairs : list FilePair) (c : Q)
    (line : json) (h : Q) :
  fst (global_analysis file_pairs) = Calibrated c ->
  In line (fst (pool_lines file_pairs)) ->
  line_height line = Ok h ->
  (forall line' h', In line' (fst (pool_lines file_pairs)) ->
                    line_height line' = Ok h' -> (h' <= h)%Q) ->
  (0 <= c <= h)%Q /\ tall_enough c line = true.
Proof.
  intros Hc Hin Hh Hmax. unfold global_analysis in Hc.
  destruct (pool_lines file_pairs) as [ls out]. cbn [fst] in *.
  destruct ls as [|l ls]; [discriminate|].
  destruct (mapM line_height (l :: ls)) as [heights|e] eqn:E; [|discriminate].
  destruct (mapM_In _ _ _ E) as [H1 H2].
  assert (heights <> []) as Hne.
  { destruct (H1 l (or_introl eq_refl)) as (y & _ & Hy). now destruct heights. }
  assert (Forall (fun x => (0 <= x)%Q) heights) as H0.
  { apply List.Forall_forall. intros x Hx. destruct (H2 x Hx) as (l' & _ & Hl').
    exact (line_height_nonneg l' x Hl'). }
  assert (Forall (fun x => (x <= h)%Q) heights) as HM.
  { apply List.Forall_forall. intros x Hx. destruct (H2 x Hx) as (l' & Hl & Hl').
    exact (Hmax l' x Hl Hl'). }
  pose proof (cutoff_of_heights_bounds heights h Hne H0 HM) as Hb.
  destruct (cutoff_of_heights heights) as [c0 msgs]. cbn [fst] in *.
  injection Hc as <-. split; [exact Hb|].
  unfold tall_enough. rewrite Hh. apply Qle_bool_iff. tauto.
Qed.

Lemma tallest_line_is_main_text_witness :
  (0 <= 21.0000 <= 30)%Q /\ tall_enough 21.0000 (line_json tall "x" []) = true.
Proof.
  apply (tallest_line_is_main_text scenario 21.0000 (line_json tall "x" []) 30).
  - reflexivity.
  - simpl. now left.
  - reflexivity.
  - intros line' h' Hin Hh. simpl in Hin.
    repeat (destruct Hin as [<- | Hin];
            [vm_compute in Hh; injection Hh as <-; discriminate|]).
    destruct Hin.
Defined.

(** X15. When a later page of a document is malformed, the lines of its
    earlier pages stay in the pool and the document is reported by the
    warning: the document is not left out as a whole. *)
Theorem malformed_page_keeps_earlier_lines (acc : list json)
    (out : list message) (pair : FilePair) (data : json)
    (good rest : list json) (bad : json) (ls : list json) (e : exn) :
  json_file pair = Loaded data ->
  get_pages_from_json data = Ok (JArr (good ++ bad :: rest)) ->
  extend_lines good [] = (ls, None) ->
  (let* v := Py.get bad "lines" (JArr []) in Py.iter v) = Raise e ->
  pool_pair (acc, out) pair
  = (acc ++ ls, out ++ [WarnCouldNotParse (json_path pair)]).
Proof.
  intros Hfile Hpages Hgood Hbad. unfold pool_pair. rewrite Hfile, Hpages.
  assert (Py.truthy (JArr (good ++ bad :: rest)) = true) as ->
    by (now destruct good).
  cbn [Py.iter]. rewrite extend_lines_app, (extend_lines_acc good acc), Hgood.
  cbn [fst snd extend_lines]. now rewrite Hbad.
Qed.

Lemma malformed_page_keeps_earlier_lines_witness :
  pool_pair ([], []) malformed_pair
  = ([] ++ [line_10_20; line_20_25],
     [] ++ [WarnCouldNotParse (json_path malformed_pair)]).
Proof.
  apply (malformed_page_keeps_earlier_lines [] [] malformed_pair
           malformed_document
           [page_json 1 "pixel" [line_10_20; line_20_25] []] []
           (JStr "oops") [line_10_20; line_20_25] AttributeError);
    reflexivity.
Defined.

(** ** The two modes of [main] *)

Lemma process_all_app (a b : list (FilePair * nat)) (c : Q) :
  process_all (a ++ b) c
  = match process_all a c with
    | (ws, None) => let (ws', e) := process_all b c in (ws ++ ws', e)
    | (ws, Some e) => (ws, Some e)
    end.
Proof.
  induction a as [|[fp n] a IH]; cbn [process_all app].
  - now destruct (process_all b c).
  - destruct (process_pair fp n c) as [w|e]; [|reflexivity].
    rewrite IH. destruct (process_all a c) as [ws [e|]]; [reflexivity|].
    now destruct (process_all b c).
Qed.

(** X16. In the full mode a JSON file that does not parse ends the run at
    its pair: the analysis only warned about it, but line 58 parses it
    again and nothing catches the exception, so the pairs before it are
    written and those after it are not processed.  In the RAG-only mode
    the same file gives an error message and every other pair is still
    processed. *)
Theorem unparseable_json_stops_full_mode (before after : list (FilePair * nat))
    (p : string) (n : nat) (c : Q) (ws : list written) :
  fst (global_analysis
         (map fst (before ++ ({| json_path := p; json_file := LoadError |}, n) :: after)))
  = Calibrated c ->
  process_all before c = (ws, None) ->
  main_full_mode (before ++ ({| json_path := p; json_file := LoadError |}, n) :: after)
  = (ws, Died ValueError) /\
  main_rag_only_mode
    (map fst (before ++ ({| json_path := p; json_file := LoadError |}, n) :: after))
  = main_rag_only_mode (map fst before)
    ++ (None, [ErrUnexpected p]) :: main_rag_only_mode (map fst after).
Proof.
  intros Hc Hbefore. split.
  - unfold main_full_mode. rewrite Hc, process_all_app, Hbefore.
    cbn [process_all process_pair json_file]. now rewrite app_nil_r.
  - unfold main_rag_only_mode. now rewrite !map_app.
Qed.

Lemma unparseable_json_stops_full_mode_witness :
  main_full_mode
    ([(List.hd malformed_pair scenario, 1%nat)]
     ++ ({| json_path := "broken.json"; json_file := LoadError |}, 1%nat)
        :: [(List.last scenario malformed_pair, 1%nat)])
  = ([Rebuilt [] [ {| page_number := JNum 1;
                      content := String.concat newline ["x"; "x"; "x"; "x"; "x"] |} ]],
     Died ValueError) /\
  main_rag_only_mode
    (map fst
       ([(List.hd malformed_pair scenario, 1%nat)]
        ++ ({| json_path := "broken.json"; json_file := LoadError |}, 1%nat)
           :: [(List.last scenario malformed_pair, 1%nat)]))
  = main_rag_only_mode (map fst [(List.hd malformed_pair scenario, 1%nat)])
    ++ (None, [ErrUnexpected "broken.json"])
       :: main_rag_only_mode (map fst [(List.last scenario malformed_pair, 1%nat)]).
Proof.
  apply (unparseable_json_stops_full_mode
           [(List.hd malformed_pair scenario, 1%nat)]
           [(List.last scenario malformed_pair, 1%nat)]
           "broken.json" 1 21.0000).
  - reflexivity.
  - reflexivity.
Defined.

(** ** The RAG-only mode *)

Lemma page_paras_truthy (page_data : json) (texts : list json) :
  page_paras page_data = Ok texts ->
  Forall (fun t => Py.truthy t = true) texts.
Proof.
  unfold page_paras. intros H. inv_bind H as ps Hps. inv_bind H as paras Hparas.
  clear Hps Hparas. revert texts H.
  induction paras as [|para paras IH]; intros texts H; cbn [concatM] in H.
  - injection H as <-. constructor.
  - inv_bind H as y Hy. inv_bind H as ys Hys. injection H as <-.
    apply Forall_app. split; [|now apply IH].
    inv_bind Hy as c Hc. destruct (Py.truthy c) eqn:Ht.
    + rewrite Hc in Hy. cbn [bind] in Hy. injection Hy as <-.
      constructor; [exact Ht | constructor].
    + injection Hy as <-. constructor.
Qed.

Lemma paragraph_chunk_nonempty (page_data : json) (chunks : list chunk) :
  paragraph_chunk page_data = Ok chunks ->
  Forall (fun ch => content ch <> "") chunks /\ (List.length chunks <= 1)%nat.
Proof.
  unfold paragraph_chunk. intros H. inv_bind H as texts Htexts.
  destruct texts as [|t texts].
  { injection H as <-. split; [constructor | simpl; lia]. }
  inv_bind H as n Hn. inv_bind H as text Htext. injection H as <-.
  split; [|simpl; lia]. constructor; [|constructor]. cbn [content].
  destruct (join_Ok _ _ _ Htext) as (ss & Hss & ->).
  pose proof (page_paras_truthy _ _ Htexts) as Ht. rewrite Hss in Ht.
  intros C. apply concat_empty in C.
  - subst ss. discriminate Hss.
  - clear - Ht. induction ss as [|s ss IH]; [constructor|].
    inversion Ht; subst. constructor; [|now apply IH].
    simpl in H1. apply negb_true_iff in H1. now apply String.eqb_neq.
Qed.

(** X17. When the RAG-only mode writes a file, it holds at least one
    chunk, no chunk has an empty content, and there are at most as many
    chunks as pages. *)
Theorem rag_only_chunks_not_empty (data : json) (chunks : list chunk) :
  rag_chunks data = Ok (Some chunks) ->
  chunks <> [] /\
  Forall (fun ch => content ch <> "") chunks /\
  exists pages_data pages,
    get_pages_from_json data = Ok pages_data /\
    Py.iter pages_data = Ok pages /\
    (List.length chunks <= List.length pages)%nat.
Proof.
  unfold rag_chunks. intros H. inv_bind H as pages_data Hpages.
  destruct (negb (Py.truthy pages_data)); [discriminate|].
  inv_bind H as pages Hiter. inv_bind H as cs Hcs.
  destruct cs as [|ch cs]; [discriminate|]. injection H as <-.
  split; [discriminate|].
  assert (Forall (fun ch => content ch <> "") (ch :: cs) /\
          (List.length (ch :: cs) <= List.length pages)%nat) as [H1 H2].
  { clear - Hcs. revert Hcs. generalize (ch :: cs). clear ch cs.
    induction pages as [|pg pages IH]; intros l H; cbn [concatM] in H.
    - injection H as <-. split; [constructor | simpl; lia].
    - inv_bind H as y Hy. inv_bind H as ys Hys. injection H as <-.
      destruct (paragraph_chunk_nonempty _ _ Hy) as [Hn Hl].
      destruct (IH _ Hys) as [Hn' Hl'].
      split; [apply Forall_app; now split|]. rewrite length_app. simpl. lia. }
  split; [exact H1|]. exists pages_data, pages. auto.
Qed.

Lemma rag_only_chunks_not_empty_witness :
  [ {| page_number := JNum 1;
       content := String.concat (newline ++ newline) ["first"; "second"] |} ]
  <> [] /\
  Forall (fun ch => content ch <> "")
    [ {| page_number := JNum 1;
         content := String.concat (newline ++ newline) ["first"; "second"] |} ] /\
  exists pages_data pages,
    get_pages_from_json paragraphs_document = Ok pages_data /\
    Py.iter pages_data = Ok pages /\
    (List.length
       [ {| page_number := JNum 1;
            content := String.concat (newline ++ newline) ["first"; "second"] |} ]
     <= List.length pages)%nat.
Proof.
  apply (rag_only_chunks_not_empty paragraphs_document). reflexivity.
Defined.

(** X18. In the RAG-only mode the content of a page is the text of all
    its paragraphs with a non-empty text, joined by a blank line; no
    height is looked at.  A page without such a paragraph gives no chunk,
    and the page number is read with [get], so it may be absent. *)
Theorem paragraph_chunk_content (page_data : json) (paras : list json)
    (chunks : list chunk) :
  Py.get page_data "paragraphs" (JArr []) = Ok (JArr paras) ->
  paragraph_chunk page_data = Ok chunks ->
  (nonempty_texts paras = [] -> chunks = []) /\
  (nonempty_texts paras <> [] ->
   exists n,
     Py.get page_data "pageNumber" JNull = Ok n /\
     chunks = [ {| page_number := n;
                   content := String.concat (newline ++ newline)
                                            (nonempty_texts paras) |} ]).
Proof.
  intros Hparas H. unfold paragraph_chunk in H. inv_bind H as texts Htexts.
  unfold page_paras in Htexts. rewrite Hparas in Htexts.
  cbn [bind Py.iter] in Htexts.
  destruct texts as [|t texts].
  - injection H as <-.
    pose proof (collected_texts paras [] [] Htexts eq_refl) as E.
    split; [reflexivity|]. intros C. now rewrite <- E in C.
  - inv_bind H as n Hn. inv_bind H as text Htext. injection H as <-.
    destruct (join_Ok _ _ _ Htext) as (ss & Hss & ->).
    pose proof (collected_texts paras _ ss Htexts Hss) as ->.
    split.
    + intros C. rewrite C in Hss. discriminate.
    + intros _. exists n. split; [exact Hn | reflexivity].
Qed.

Lemma paragraph_chunk_content_witness :
  exists n,
    Py.get paragraphs_page "pageNumber" JNull = Ok n /\
    [ {| page_number := JNum 1;
         content := String.concat (newline ++ newline) ["first"; "second"] |} ]
    = [ {| page_number := n;
           content := String.concat (newline ++ newline)
                                    (nonempty_texts paragraphs) |} ].
Proof.
  apply (proj2 (paragraph_chunk_content paragraphs_page paragraphs _
                  eq_refl eq_refl)).
  discriminate.
Defined.

Lemma concatM_raises {A B : Type} (f : A -> res (list B)) (l : list A)
    (x : A) (e : exn) :
  In x l -> f x = Raise e -> exists e', concatM f l = Raise e'.
Proof.
  induction l as [|a l IH]; intros Hin Hx; [destruct Hin|].
  cbn [concatM]. destruct (f a) as [y|e0] eqn:Ea; [|simpl; eauto].
  destruct Hin as [-> | Hin]; [congruence|].
  destruct (IH Hin Hx) as (e' & ->). simpl. eauto.
Qed.

(** X19. In the RAG-only mode a page that cannot be processed costs the
    whole document: nothing is written for it, the chunks of its other
    pages included, and one error is printed; no exception leaves the
    function. *)
Theorem malformed_page_discards_rag_output (pair : FilePair) (data : json)
    (pages : list json) (bad : json) (e : exn) :
  json_file pair = Loaded data ->
  get_pages_from_json data = Ok (JArr pages) ->
  In bad pages ->
  paragraph_chunk bad = Raise e ->
  generate_rag_json_only pair = (None, [ErrUnexpected (json_path pair)]).
Proof.
  intros Hfile Hpages Hin Hbad. unfold generate_rag_json_only, rag_chunks.
  rewrite Hfile, Hpages. cbn [bind].
  assert (Py.truthy (JArr pages) = true) as -> by (now destruct pages).
  cbn [negb bind Py.iter].
  destruct (concatM_raises _ _ _ _ Hin Hbad) as (e' & ->). reflexivity.
Qed.

Lemma malformed_page_discards_rag_output_witness :
  generate_rag_json_only malformed_pair
  = (None, [ErrUnexpected (json_path malformed_pair)]).
Proof.
  apply (malformed_page_discards_rag_output malformed_pair malformed_document
           [page_json 1 "pixel" [line_10_20; line_20_25] []; JStr "oops"]
           (JStr "oops") AttributeError).
  - reflexivity.
  - reflexivity.
  - simpl. auto.
  - reflexivity.
Defined.

(** ** The image rebuild, once more *)

Module RemoveOcrTextlayerMoreFacts.
Import RemoveOcrTextlayer.
Import RemoveOcrTextlayerMain.
Import RemoveOcrTextlayerTerms.
Import RemoveOcrTextlayerExamples.
Import RemoveOcrTextlayerFacts.

Lemma place_images_extracted (i : nat) (img_list : list (res placed)) :
  fst (place_images i img_list) = extracted img_list.
Proof.
  induction img_list as [|[p|e] rest IH]; cbn [place_images extracted];
    [reflexivity| |]; destruct (place_images i rest) as [ps out];
    simpl in *; now rewrite IH.
Qed.

(** X20. When the copy of the pages returns, the new document has one
    page for every page of the original, in order, each with the size of
    its original and with the images of that page that could be
    extracted, in their order; an image that fails is the only thing
    left out. *)
Theorem rebuild_pages_copies_every_page (original_doc : list page) :
  forall (i : nat) (out : list message) (new_doc : list new_page),
    rebuild_pages i original_doc = (out, Ok new_doc) ->
    List.Forall2 copy_of original_doc new_doc.
Proof.
  induction original_doc as [|pg rest IH]; intros i out new_doc H;
    cbn [rebuild_pages] in H.
  - injection H as _ <-. constructor.
  - destruct (get_images pg) as [img_list|e] eqn:Eimg; [|discriminate].
    destruct (rebuild_pages (S i) rest) as [out' later] eqn:Erest.
    destruct later as [new_pages|e]; cycle 1.
    { destruct img_list; [|destruct (place_images (S i) _)]; discriminate. }
    assert (exists imgs msgs,
              (match img_list with
               | [] => ([], [WarnNoImages (S i)])
               | _ :: _ => place_images (S i) img_list
               end) = (imgs, msgs) /\ imgs = extracted img_list)
      as (imgs & msgs & E & Himgs).
    { destruct img_list as [|im ims]; [now exists [], [WarnNoImages (S i)]|].
      pose proof (place_images_extracted (S i) (im :: ims)) as Hp.
      destruct (place_images (S i) (im :: ims)) as [a b]. now exists a, b. }
    rewrite E in H. cbn [bind] in H. injection H as _ <-.
    constructor; [|exact (IH _ _ _ Erest)].
    split; [reflexivity|]. split; [reflexivity|].
    exists img_list. split; [exact Eimg | exact Himgs].
Qed.

Lemma rebuild_pages_copies_every_page_witness :
  List.Forall2 copy_of [mixed_page]
    [ {| np_width := 100; np_height := 200;
         np_images := [one_image; one_image] |} ].
Proof.
  apply (rebuild_pages_copies_every_page [mixed_page] 0 [WarnImage 1]).
  reflexivity.
Defined.

(** X21. The copy of the pages raises exactly when creating a page or
    listing its images raises for some page: an image that cannot be
    extracted or placed never stops it. *)
Theorem rebuild_pages_raises_iff (original_doc : list page) :
  forall i : nat,
    (exists out e, rebuild_pages i original_doc = (out, Raise e)) <->
    Exists (fun pg => exists e, get_images pg = Raise e) original_doc.
Proof.
  induction original_doc as [|pg rest IH]; intros i; cbn [rebuild_pages].
  - split; [intros (out & e & H); discriminate | intros H; inversion H].
  - destruct (get_images pg) as [img_list|e] eqn:Eimg.
    + specialize (IH (S i)).
      destruct (match img_list with
                | [] => ([], [WarnNoImages (S i)])
                | _ :: _ => place_images (S i) img_list
                end) as [imgs msgs].
      destruct (rebuild_pages (S i) rest) as [out' [new_pages|e]]; cbn [bind].
      * split; [intros (out & e & H); discriminate|].
        intros H. inversion H as [? ? (e & He)|? ? Hr]; subst; [congruence|].
        apply IH in Hr. destruct Hr as (o & e & Hr). discriminate.
      * split; [|eauto]. intros _. right. apply IH. eauto.
    + split; [|eauto]. intros _. left. eauto.
Qed.

Lemma rebuild_and_replace_not_raised (B : backend) (pdf : string)
    (original : bytes) (files : gmap string bytes) (out : list message) :
  raised (rebuild_and_replace B pdf original files out) = None.
Proof.
  unfold rebuild_and_replace.
  destruct (rebuilt B original) as [w [nd|e]]; [|reflexivity].
  destruct (save B nd); [destruct (move_ok B)|]; reflexivity.
Qed.

Lemma rebuild_and_replace_no_temp (B : backend) (pdf : string)
    (original : bytes) (files : gmap string bytes) (out : list message) :
  with_suffix B pdf ".tmp.pdf" <> pdf ->
  files_after (rebuild_and_replace B pdf original files out)
    !! with_suffix B pdf ".tmp.pdf" = None.
Proof.
  intros Htmp. unfold rebuild_and_replace.
  destruct (rebuilt B original) as [w [nd|e]]; cbn [files_after];
    [|apply remove_if_exists_same].
  destruct (save B nd) as [s|l]; [destruct (move_ok B)|]; cbn [files_after];
    try apply remove_if_exists_same.
  rewrite lookup_insert_ne by congruence. apply lookup_delete_eq.
Qed.

Lemma rebuild_and_replace_frame (B : backend) (pdf : string)
    (original : bytes) (files : gmap string bytes) (out : list message)
    (other : string) :
  other <> pdf -> other <> with_suffix B pdf ".tmp.pdf" ->
  files_after (rebuild_and_replace B pdf original files out) !! other
  = files !! other.
Proof.
  intros Hp Ht. unfold rebuild_and_replace.
  destruct (rebuilt B original) as [w [nd|e]]; cbn [files_after];
    [|now rewrite remove_if_exists_other by congruence].
  destruct (save B nd) as [s|[partial|]]; [destruct (move_ok B)| |];
    cbn [files_after].
  - rewrite lookup_insert_ne by congruence.
    rewrite lookup_delete_ne by congruence.
    now rewrite lookup_insert_ne by congruence.
  - rewrite remove_if_exists_other by congruence.
    now rewrite lookup_insert_ne by congruence.
  - rewrite remove_if_exists_other by congruence.
    now rewrite lookup_insert_ne by congruence.
  - now rewrite remove_if_exists_other by congruence.
Qed.

(** X22. When [rebuild_from_images] returns for a file that exists, no
    file is left at the temporary path: on success it was moved, on every
    handled failure it was removed, a stale one included. *)
Theorem no_temporary_file_left (B : backend) (pdf_path : string)
    (create_backup : bool) (files : gmap string bytes) (original : bytes) :
  with_suffix B pdf_path ".tmp.pdf" <> pdf_path ->
  files !! pdf_path = Some original ->
  raised (rebuild_from_images B pdf_path create_backup files) = None ->
  files_after (rebuild_from_images B pdf_path create_backup files)
    !! with_suffix B pdf_path ".tmp.pdf" = None.
Proof.
  intros Htmp Hpdf. unfold rebuild_from_images. rewrite Hpdf.
  destruct create_backup; [destruct (copy2_ok B)|]; cbn [raised];
    try discriminate; intros _; now apply rebuild_and_replace_no_temp.
Qed.

Lemma no_temporary_file_left_witness :
  files_after (rebuild_from_images stuck_backend "scan.pdf" true scan_files)
    !! "scan.tmp.pdf" = None.
Proof.
  apply (no_temporary_file_left stuck_backend "scan.pdf" true scan_files
           "original").
  - discriminate.
  - reflexivity.
  - reflexivity.
Defined.

(** X23. [rebuild_from_images] touches three paths only: the PDF, its
    temporary file and its backup.  Every other file is as it was. *)
Theorem other_files_untouched (B : backend) (pdf_path other : string)
    (create_backup : bool) (files : gmap string bytes) :
  other <> pdf_path ->
  other <> with_suffix B pdf_path ".tmp.pdf" ->
  other <> with_suffix B pdf_path ".bak.pdf" ->
  files_after (rebuild_from_images B pdf_path create_backup files) !! other
  = files !! other.
Proof.
  intros Hp Ht Hb. unfold rebuild_from_images.
  destruct (files !! pdf_path) as [original|]; [|reflexivity].
  destruct create_backup; [destruct (copy2_ok B)|]; cbn [files_after];
    try reflexivity.
  - rewrite rebuild_and_replace_frame by assumption.
    now rewrite lookup_insert_ne by congruence.
  - now apply rebuild_and_replace_frame.
Qed.

Lemma other_files_untouched_witness :
  files_after (rebuild_from_images plain_backend "a.pdf" true two_files)
    !! "b.pdf" = two_files !! "b.pdf".
Proof.
  apply (other_files_untouched plain_backend "a.pdf" "b.pdf" true two_files);
    discriminate.
Defined.

(** X24. With a backup, once the copy has succeeded the backup holds the
    original content when the function returns, whether the rebuild
    succeeds or fails. *)
Theorem backup_keeps_original (B : backend) (pdf_path : string)
    (files : gmap string bytes) (original : bytes) :
  with_suffix B pdf_path ".bak.pdf" <> pdf_path ->
  with_suffix B pdf_path ".bak.pdf" <> with_suffix B pdf_path ".tmp.pdf" ->
  files !! pdf_path = Some original ->
  raised (rebuild_from_images B pdf_path true files) = None ->
  files_after (rebuild_from_images B pdf_path true files)
    !! with_suffix B pdf_path ".bak.pdf" = Some original.
Proof.
  intros Hb Hbt Hpdf. unfold rebuild_from_images. rewrite Hpdf.
  destruct (copy2_ok B); cbn [raised]; [|discriminate]. intros _.
  rewrite rebuild_and_replace_frame by assumption. apply lookup_insert_eq.
Qed.

Lemma backup_keeps_original_witness :
  files_after (rebuild_from_images plain_backend "scan.pdf" true scan_files)
    !! "scan.bak.pdf" = Some "original".
Proof.
  apply (backup_keeps_original plain_backend "scan.pdf" scan_files "original").
  - discriminate.
  - discriminate.
  - reflexivity.
  - reflexivity.
Defined.

(** X25. When [shutil.move] fails (without having changed a file), the
    exception is handled: the original still has its content, the
    temporary file with the rebuilt PDF is removed, so the rebuilt
    document is lost, and no exception leaves the function. *)
Theorem failed_move_keeps_original (B : backend) (pdf_path : string)
    (files : gmap string bytes) (original : bytes) :
  with_suffix B pdf_path ".tmp.pdf" <> pdf_path ->
  files !! pdf_path = Some original ->
  move_ok B = false ->
  files_after (rebuild_from_images B pdf_path false files) !! pdf_path
  = Some original /\
  files_after (rebuild_from_images B pdf_path false files)
    !! with_suffix B pdf_path ".tmp.pdf" = None /\
  raised (rebuild_from_images B pdf_path false files) = None.
Proof.
  intros Htmp Hpdf Hmove. unfold rebuild_from_images. rewrite Hpdf.
  split; [|split; [now apply rebuild_and_replace_no_temp
                  | apply rebuild_and_replace_not_raised]].
  unfold rebuild_and_replace. rewrite Hmove.
  destruct (rebuilt B original) as [w [nd|e]]; cbn [files_after];
    [|now rewrite remove_if_exists_other by congruence].
  destruct (save B nd) as [s|[partial|]]; cbn [files_after];
    rewrite remove_if_exists_other by congruence;
    rewrite ?lookup_insert_ne by congruence; exact Hpdf.
Qed.

Lemma failed_move_keeps_original_witness :
  files_after (rebuild_from_images stuck_backend "scan.pdf" false scan_files)
    !! "scan.pdf" = Some "original" /\
  files_after (rebuild_from_images stuck_backend "scan.pdf" false scan_files)
    !! "scan.tmp.pdf" = None /\
  raised (rebuild_from_images stuck_backend "scan.pdf" false scan_files) = None.
Proof.
  apply (failed_move_keeps_original stuck_backend "scan.pdf" scan_files
           "original").
  - discriminate.
  - reflexivity.
  - reflexivity.
Defined.

(** X26. Without backups no exception of opening, copying the pages,
    saving or moving leaves the loop of [main], whatever these calls do:
    each one is handled inside [rebuild_from_images], so a file that fails
    never keeps the later files of the list from being attempted. *)
Theorem rebuild_all_without_backup_never_raises (B : backend)
    (pdfs : list string) :
  forall files : gmap string bytes,
    raised (rebuild_all B pdfs false files) = None.
Proof.
  induction pdfs as [|f rest IH]; intros files; cbn [rebuild_all raised];
    [reflexivity|].
  assert (raised (rebuild_from_images B f false files) = None) as ->.
  { unfold rebuild_from_images. destruct (files !! f); [|reflexivity].
    apply rebuild_and_replace_not_raised. }
  cbn [raised]. apply IH.
Qed.

(** X27. The backup copy of line 26 is outside every [try]: when
    [shutil.copy2] fails (without having written a file), the exception
    leaves [rebuild_from_images] and the loop of [main] at the first file
    of the list that exists, so no file is rebuilt or changed; the run
    ends normally only when no file of the list exists. *)
Theorem failed_backup_changes_nothing (B : backend) (pdfs : list string) :
  copy2_ok B = false ->
  forall files : gmap string bytes,
    files_after (rebuild_all B pdfs true files) = files /\
    (raised (rebuild_all B pdfs true files) = Some OSError <->
     exists f, In f pdfs /\ is_Some (files !! f)).
Proof.
  intros Hcopy. induction pdfs as [|f rest IH]; intros files; cbn [rebuild_all].
  - cbn [files_after raised]. split; [reflexivity|].
    split; [discriminate | intros (f & [] & _)].
  - unfold rebuild_from_images. rewrite Hcopy.
    destruct (files !! f) as [original|] eqn:Ef; cbn [raised files_after printed].
    + split; [reflexivity|]. split; [|reflexivity].
      intros _. exists f. split; [now left | now rewrite Ef].
    + destruct (IH files) as [H1 H2]. split; [exact H1|].
      rewrite H2. split.
      * intros (g & Hg & Hs). exists g. split; [now right | exact Hs].
      * intros (g & [<- | Hg] & Hs); [rewrite Ef in Hs; now destruct Hs|].
        exists g. auto.
Qed.

Lemma failed_backup_changes_nothing_witness :
  files_after (rebuild_all no_copy_backend ["missing.pdf"; "a.pdf"; "b.pdf"]
                           true two_files)
  = two_files /\
  (raised (rebuild_all no_copy_backend ["missing.pdf"; "a.pdf"; "b.pdf"]
                       true two_files) = Some OSError <->
   exists f, In f ["missing.pdf"; "a.pdf"; "b.pdf"] /\ is_Some (two_files !! f)).
Proof.
  apply (failed_backup_changes_nothing no_copy_backend
           ["missing.pdf"; "a.pdf"; "b.pdf"]).
  reflexivity.
Defined.

End RemoveOcrTextlayerMoreFacts.
